(** * roosterjs-react: the Editable Surface (LeanRooster) and the Command Bar

    A shallow embedding of the two React components of the repository,

    - [LeanRooster.tsx]: the content-editable surface that switches between
      a static View rendering and a live Edit session, and
    - [RoosterCommandBar.tsx]: the command bar that polls the editor's format
      state and drives the hidden image file input,

    followed by the properties the specification states about them.

    Component instances are mutable objects. Each one is modelled as a
    record holding its private fields together with the part of the outside
    world its methods read or write (the parent's view-state object, the
    markup of the content div, the timer object), and a trace of the calls it
    makes to its collaborators. Methods are computations in a small state
    monad with exceptions. *)

From Stdlib Require Import ZArith Lia.
From stdpp Require Import base option list strings gmap.

Set Default Proof Using "Type".
Open Scope string_scope.
Open Scope list_scope.
Open Scope nat_scope.

(** ** A state monad with exceptions

    A method runs against the component's state and either completes with a
    value or throws; the state reached so far is kept in both cases, as in
    JavaScript. *)

Inductive Completion (A : Type) : Type :=
| Normal (a : A)
| Throw (e : string).
Arguments Normal {A} a.
Arguments Throw {A} e.

Definition M (S A : Type) : Type := S → Completion A * S.

Definition ret {S A} (a : A) : M S A := λ s, (Normal a, s).

Definition bind {S A B} (m : M S A) (k : A → M S B) : M S B :=
  λ s, match m s with
       | (Normal a, s') => k a s'
       | (Throw e, s') => (Throw e, s')
       end.

Definition get {S} : M S S := λ s, (Normal s, s).
Definition modify {S} (f : S → S) : M S unit := λ s, (Normal tt, f s).
Definition throw {S A} (e : string) : M S A := λ s, (Throw e, s).

(** [exec m s] is the state after running [m] from [s]; [result m s] is how
    the run completed. *)
Definition exec {S A} (m : M S A) (s : S) : S := snd (m s).
Definition result {S A} (m : M S A) (s : S) : Completion A := fst (m s).

Declare Scope js_scope.
Delimit Scope js_scope with js.
Notation "x <- m ;; k" := (bind m (λ x, k))
  (at level 100, m at next level, right associativity) : js_scope.
Notation "m ;;; k" := (bind m (λ _, k))
  (at level 100, right associativity) : js_scope.
Open Scope js_scope.

(** JavaScript truthiness of an optional boolean ([None] is [undefined]) and
    of a string. *)
Definition truthy (b : option bool) : bool := default false b.
Definition truthy_string (s : string) : bool := negb (String.eqb s "").

(** ** Values shared by the two components *)

(** The values a format-state flag takes: the flat mapping holds booleans,
    strings and (integral) numbers; an absent key reads as [undefined]. *)
Inductive JsValue : Type :=
| JUndefined
| JBool (b : bool)
| JString (s : string)
| JNumber (n : Z).

#[global] Instance JsValue_eq_dec : EqDecision JsValue.
Proof. solve_decision. Defined.

(** [a !== b] on those values. *)
Definition strict_neq (a b : JsValue) : bool := bool_decide (a ≠ b).

Abbreviation FormatState := (gmap string JsValue).

(** [o[key]] on a plain object used as a mapping. *)
Definition prop (o : FormatState) (key : string) : JsValue :=
  default JUndefined (o !! key).

(** The editor engine is an external collaborator. Of one instance the model
    keeps its identity, whether it was disposed, and the format state the
    engine reports at its current selection (what [getFormatState(editor)]
    returns). *)
Record Editor : Type := mkEditor {
  editorId : nat;
  isDisposed : bool;
  selectionFormat : FormatState;
}.

Definition getFormatState (editor : Editor) : FormatState := selectionFormat editor.

(** ** LeanRooster.tsx *)

Module LeanRooster.

Inductive LeanRoosterModes : Type := View | Edit.

#[global] Instance LeanRoosterModes_eq_dec : EqDecision LeanRoosterModes.
Proof. solve_decision. Defined.

(** [EditorViewState]: [content] may be [null]. *)
Record EditorViewState : Type := mkViewState {
  content : option string;
  isDirty : bool;
}.

#[global] Instance EditorViewState_eq_dec : EqDecision EditorViewState.
Proof. solve_decision. Defined.

(** The props the modelled methods read. Optional props are [None] when the
    parent leaves them out. [onAfterModeChange], [onBlur] and [onFocus] return
    nothing; calling them (or the [NullFunction] default) is recorded in the
    trace. A parent-supplied [updateViewState] is given by the view state it
    leaves behind. *)
Record LeanRoosterProps : Type := mkProps {
  activateRoosterOnMount : option bool;
  onBeforeModeChange : option (LeanRoosterModes → bool);
  readonly : option bool;
  updateViewState :
    option (EditorViewState → string → option bool → EditorViewState);
}.

(** Calls the component makes to its collaborators. *)
Inductive Effect : Type :=
| NewEditor (id : nat)
| EditorDispose (id : nat)
| EditorFocus (id : nat)
| EditorSetContent (id : nat)
| UndoClear
| AddUndoSnapshot (id : nat)
| ForceUpdate
| OnBeforeModeChange (newMode : LeanRoosterModes)
| OnAfterModeChange (newMode : LeanRoosterModes)
| OnBlur
| OnFocus.

#[global] Instance Effect_eq_dec : EqDecision Effect.
Proof. solve_decision. Defined.

(** The component instance: its private fields, the parent's view-state
    object [props.viewState], the markup of the content div (which the
    engine reads and the user edits), and the trace, oldest call first. *)
Record LeanRooster : Type := mkLeanRooster {
  _editor : option Editor;
  _mode : LeanRoosterModes;
  _initialContent : option string;
  viewState : EditorViewState;
  innerHTML : string;
  trace : list Effect;
}.

Definition set_editor (e : option Editor) (st : LeanRooster) : LeanRooster :=
  mkLeanRooster e (_mode st) (_initialContent st) (viewState st) (innerHTML st) (trace st).
Definition set_mode (m : LeanRoosterModes) (st : LeanRooster) : LeanRooster :=
  mkLeanRooster (_editor st) m (_initialContent st) (viewState st) (innerHTML st) (trace st).
Definition set_initialContent (c : option string) (st : LeanRooster) : LeanRooster :=
  mkLeanRooster (_editor st) (_mode st) c (viewState st) (innerHTML st) (trace st).
Definition set_viewState (v : EditorViewState) (st : LeanRooster) : LeanRooster :=
  mkLeanRooster (_editor st) (_mode st) (_initialContent st) v (innerHTML st) (trace st).
Definition set_innerHTML (h : string) (st : LeanRooster) : LeanRooster :=
  mkLeanRooster (_editor st) (_mode st) (_initialContent st) (viewState st) h (trace st).
Definition log (e : Effect) (st : LeanRooster) : LeanRooster :=
  mkLeanRooster (_editor st) (_mode st) (_initialContent st) (viewState st) (innerHTML st)
    (trace st ++ [e]).

Definition emit (e : Effect) : M LeanRooster unit := modify (log e).

(** Number of [new Editor(...)] calls and of [dispose()] calls so far. *)
Definition is_NewEditor (e : Effect) : bool :=
  match e with NewEditor _ => true | _ => false end.
Definition is_EditorDispose (e : Effect) : bool :=
  match e with EditorDispose _ => true | _ => false end.
Definition constructed (st : LeanRooster) : nat :=
  length (filter (λ e, is_NewEditor e = true) (trace st)).
Definition disposed (st : LeanRooster) : nat :=
  length (filter (λ e, is_EditorDispose e = true) (trace st)).
(** Engine instances that were constructed and not yet disposed. *)
Definition live (st : LeanRooster) : nat := constructed st - disposed st.

(** [_setInitialReactContent] computes [_initialContent] from the view
    state. *)
Definition initialReactContent (vs : EditorViewState) : option string :=
  match content vs with
  | Some c => if (0 <? String.length c)%nat then Some c else None
  | None => None
  end.

Definition _setInitialReactContent : M LeanRooster unit :=
  modify (λ st, set_initialContent (initialReactContent (viewState st)) st).

(** The constructor followed by the first render: the div shows the initial
    markup, there is no engine and the mode is View. *)
Definition constructor (vs : EditorViewState) : LeanRooster :=
  let ic := initialReactContent vs in
  mkLeanRooster None View ic vs (default "" ic) [].

(** [new Editor(this._contentDiv, this._editorOptions)]. *)
Definition newEditor : M LeanRooster Editor :=
  st <- get ;;
  let ed := mkEditor (constructed st) false ∅ in
  emit (NewEditor (editorId ed)) ;;;
  ret ed.

(** [editor.getContent()]: the engine serialises the content div. *)
Definition getContent (ed : Editor) : M LeanRooster string :=
  st <- get ;; ret (innerHTML st).

(** The default [_updateViewState]. [originalContent] is [None] for [null]. *)
Definition _updateViewState (st : LeanRooster)
    (vs : EditorViewState) (newContent : string) (isInitializing : option bool)
    : EditorViewState :=
  if bool_decide (content vs ≠ Some newContent) then
    if negb (truthy isInitializing) then
      let originalContent := _initialContent st in
      mkViewState (Some newContent) (bool_decide (Some newContent ≠ originalContent))
    else mkViewState (Some newContent) (isDirty vs)
  else vs.

Definition _updateContentToViewState (p : LeanRoosterProps)
    (isInitializing : option bool) : M LeanRooster unit :=
  st <- get ;;
  match _editor st with
  | Some ed =>
      c <- getContent ed ;;
      let upd := default (_updateViewState st) (updateViewState p) in
      modify (set_viewState (upd (viewState st) c isInitializing))
  | None => ret tt
  end.

(** [onBeforeModeChange(newMode)], with [NullFunction] as the default. *)
Definition callOnBeforeModeChange (p : LeanRoosterProps)
    (newMode : LeanRoosterModes) : M LeanRooster bool :=
  emit (OnBeforeModeChange newMode) ;;;
  ret (match onBeforeModeChange p with Some f => f newMode | None => false end).

(** The result is [Some b] for the boolean [b] and [None] for [undefined]
    (the bare [return;] after a veto). *)
Definition _trySwithToEditMode (p : LeanRoosterProps) : M LeanRooster (option bool) :=
  st <- get ;;
  if bool_decide (_mode st = Edit) || truthy (readonly p) then ret (Some false)
  else
    veto <- callOnBeforeModeChange p Edit ;;
    if veto then ret None
    else
      let isInitializing := bool_decide (_editor st = None) in
      (if isInitializing
       then ed <- newEditor ;; modify (set_editor (Some ed))
       else ret tt) ;;;
      modify (set_mode Edit) ;;;
      _updateContentToViewState p (Some isInitializing) ;;;
      emit ForceUpdate ;;;
      emit (OnAfterModeChange Edit) ;;;
      ret (Some true).

Definition _trySwitchToViewMode (p : LeanRoosterProps) : M LeanRooster (option bool) :=
  st <- get ;;
  if bool_decide (_mode st = View) then ret (Some false)
  else
    veto <- callOnBeforeModeChange p View ;;
    if veto then ret (Some false)
    else
      _updateContentToViewState p None ;;;
      modify (set_mode View) ;;;
      emit ForceUpdate ;;;
      emit (OnAfterModeChange View) ;;;
      ret (Some true).

Definition componentDidMount (p : LeanRoosterProps) : M LeanRooster unit :=
  if negb (truthy (readonly p)) && truthy (activateRoosterOnMount p)
  then _trySwithToEditMode p ;;; ret tt
  else ret tt.

Definition componentWillUnmount (p : LeanRoosterProps) : M LeanRooster unit :=
  _updateContentToViewState p None ;;;
  st <- get ;;
  match _editor st with
  | Some ed => emit (EditorDispose (editorId ed)) ;;; modify (set_editor None)
  | None => ret tt
  end.

(** The [mode] property. *)
Definition mode (st : LeanRooster) : LeanRoosterModes := _mode st.

Definition set_mode_property (p : LeanRoosterProps) (value : LeanRoosterModes)
    : M LeanRooster unit :=
  if bool_decide (value = Edit)
  then _trySwithToEditMode p ;;; ret tt
  else _trySwitchToViewMode p ;;; ret tt.

Definition focus : M LeanRooster unit :=
  st <- get ;;
  match _editor st with
  | Some ed => emit (EditorFocus (editorId ed))
  | None => ret tt
  end.

(** [reloadContent]: with an engine, [setContent] replaces the markup of the
    div by the view state's content; without one the static markup is
    rendered again. *)
Definition reloadContent : M LeanRooster unit :=
  st <- get ;;
  match _editor st with
  | Some ed =>
      emit (EditorSetContent (editorId ed)) ;;;
      modify (set_innerHTML (default "" (content (viewState st)))) ;;;
      emit UndoClear ;;;
      emit (AddUndoSnapshot (editorId ed))
  | None =>
      _setInitialReactContent ;;;
      emit ForceUpdate ;;;
      modify (λ st', set_innerHTML (default "" (_initialContent st')) st')
  end.

Definition _onMouseDown (p : LeanRoosterProps) : M LeanRooster unit :=
  _trySwithToEditMode p ;;; ret tt.

(** [hasFocus] is what [editor.hasFocus()] answers at the time of the event. *)
Definition _onMouseUp (hasFocus : bool) : M LeanRooster unit :=
  st <- get ;;
  match _editor st with
  | Some ed => if negb hasFocus then emit (EditorFocus (editorId ed)) else ret tt
  | None => ret tt
  end.

Definition _onBlur (p : LeanRoosterProps) : M LeanRooster unit :=
  _updateContentToViewState p None ;;;
  emit OnBlur.

Definition _onFocus (p : LeanRoosterProps) : M LeanRooster unit :=
  switched <- _trySwithToEditMode p ;;
  (if truthy switched
   then st <- get ;;
        match _editor st with
        | Some ed => emit (EditorFocus (editorId ed))
        | None => throw "TypeError"
        end
   else ret tt) ;;;
  emit OnFocus.

(** What can happen to a mounted surface: the parent calls a public member,
    React delivers a DOM event, or the user edits the markup of the div.
    [selectAll] only moves the selection, which the model does not hold, and
    has no event. *)
Inductive Event : Type :=
| DidMount
| WillUnmount
| SetMode (value : LeanRoosterModes)
| Focus
| ReloadContent
| MouseDown
| MouseUp (hasFocus : bool)
| Blur
| FocusIn
| UserInput (html : string).

Definition is_WillUnmount (ev : Event) : bool :=
  match ev with WillUnmount => true | _ => false end.

Definition handle (p : LeanRoosterProps) (ev : Event) : M LeanRooster unit :=
  match ev with
  | DidMount => componentDidMount p
  | WillUnmount => componentWillUnmount p
  | SetMode value => set_mode_property p value
  | Focus => focus
  | ReloadContent => reloadContent
  | MouseDown => _onMouseDown p
  | MouseUp hasFocus => _onMouseUp hasFocus
  | Blur => _onBlur p
  | FocusIn => _onFocus p
  | UserInput html => modify (set_innerHTML html)
  end.

(** A run: each event comes with the props current when it happens. *)
Fixpoint run (evs : list (LeanRoosterProps * Event)) (st : LeanRooster) : LeanRooster :=
  match evs with
  | [] => st
  | (p, ev) :: rest => run rest (exec (handle p ev) st)
  end.

(** [switchToEdit()] and [switchToView()] of the specification are the two
    private methods behind the [mode] setter. *)
Inductive Switch : Type := SwitchToEdit | SwitchToView.

Definition switch (p : LeanRoosterProps) (s : Switch) : M LeanRooster (option bool) :=
  match s with
  | SwitchToEdit => _trySwithToEditMode p
  | SwitchToView => _trySwitchToViewMode p
  end.

Definition defaultProps : LeanRoosterProps := mkProps None None None None.

(** ** Observations the properties are stated with *)

(** The mode a switch aims at. *)
Definition target (s : Switch) : LeanRoosterModes :=
  match s with SwitchToEdit => Edit | SwitchToView => View end.

(** Number of [onAfterModeChange] calls so far. *)
Definition is_OnAfterModeChange (e : Effect) : bool :=
  match e with OnAfterModeChange _ => true | _ => false end.
Definition afterCalls (st : LeanRooster) : nat :=
  length (filter (λ e, is_OnAfterModeChange e = true) (trace st)).

(** Every engine constructed so far was disposed, except the one the
    surface holds. *)
Definition engine_accounting (st : LeanRooster) : Prop :=
  constructed st = disposed st + (match _editor st with Some _ => 1 | None => 0 end).

(** Runs in which the surface is not unmounted. *)
Definition without_unmount (evs : list (LeanRoosterProps * Event)) : bool :=
  forallb (λ pe, negb (is_WillUnmount pe.2)) evs.

(** In Edit mode the surface holds an engine. *)
Definition edit_has_engine (st : LeanRooster) : Prop :=
  _mode st = Edit → is_Some (_editor st).

(** Props of a parent that vetoes every mode change. *)
Definition vetoAll : LeanRoosterProps :=
  mkProps None (Some (λ _, true)) None None.

(** ** selectAll

    [selectAll] moves the selection and touches none of the fields above.
    It is a computation over the list of selection calls made so far, reading
    the surface. [contentDiv] tells whether [_contentDiv] is set;
    [removeAllRangesThrows] whether [selection.removeAllRanges()] raises the
    exception 800a025e of the legacy browser. *)

Inductive SelectionCall : Type :=
| EditorCreateRange (id : nat)
| SelectNodeContents
| EditorUpdateSelection (id : nat)
| OwnerDocumentCreateRange
| WindowGetSelection
| RemoveAllRanges
| AddRange.

#[global] Instance SelectionCall_eq_dec : EqDecision SelectionCall.
Proof. solve_decision. Defined.

Definition call (c : SelectionCall) : M (list SelectionCall) unit :=
  modify (λ calls, calls ++ [c]).

(** [try { m } catch (e) { }]. *)
Definition try_catch {S} (m : M S unit) : M S unit :=
  λ s, match m s with
       | (Throw _, s') => (Normal tt, s')
       | r => r
       end.

Definition removeAllRanges (removeAllRangesThrows : bool) : M (list SelectionCall) unit :=
  call RemoveAllRanges ;;;
  if removeAllRangesThrows then throw "800a025e" else ret tt.

Definition selectAll (contentDiv : bool) (removeAllRangesThrows : bool)
    (st : LeanRooster) : M (list SelectionCall) unit :=
  if negb contentDiv then ret tt
  else
    let domSelection :=
      call OwnerDocumentCreateRange ;;;
      call SelectNodeContents ;;;
      call WindowGetSelection ;;;
      try_catch (removeAllRanges removeAllRangesThrows) ;;;
      call AddRange in
    match _editor st with
    | Some ed =>
        if negb (isDisposed ed) then
          call (EditorCreateRange (editorId ed)) ;;;
          call SelectNodeContents ;;;
          call (EditorUpdateSelection (editorId ed))
        else domSelection
    | None => domSelection
    end.

(** ** Further observations *)

(** What [onBeforeModeChange(newMode)] answers, [NullFunction] included. *)
Definition vetoes (p : LeanRoosterProps) (newMode : LeanRoosterModes) : bool :=
  match onBeforeModeChange p with Some f => f newMode | None => false end.

(** Events that neither switch the mode nor flush content. *)
Definition is_passive (ev : Event) : bool :=
  match ev with
  | Focus | ReloadContent | MouseUp _ | UserInput _ => true
  | _ => false
  end.

(** Runs during which the surface is read-only throughout. *)
Definition always_readonly (evs : list (LeanRoosterProps * Event)) : bool :=
  forallb (λ pe, truthy (readonly pe.1)) evs.


End LeanRooster.

(** ** The Async utility

    [Async] comes from office-ui-fabric-react. The command bar creates one
    instance, wraps [_updateFormatState] with [debounce(..., 100)] and calls
    [dispose()] on unmount. The model keeps what these three calls touch:
    whether the instance was disposed and whether the debounce timer is
    running. The 100 ms are not measured: the timer running out is an event
    of its own. *)

Module Async.

Record t : Type := mk {
  _isDisposed : bool;
  timerPending : bool;
}.

Definition create : t := mk false false.

(** Calling the debounced function (re)starts the timer; [setTimeout] of a
    disposed instance schedules nothing. *)
Definition debounced (a : t) : t :=
  if _isDisposed a then a else mk false true.

(** [dispose()] clears every timer the instance has started. *)
Definition dispose (a : t) : t := mk true false.

(** The timer runs out: the wrapped function is due iff the timer was still
    pending. *)
Definition expire (a : t) : bool * t :=
  if timerPending a then (true, mk (_isDisposed a) false) else (false, a).

End Async.

(** ** RoosterCommandBar.tsx *)

Module RoosterCommandBar.

Definition File : Type := string.
Definition Node : Type := string.

Record HTMLInputElement : Type := mkInput {
  files : list File;
  value : string;
}.

(** The injected image manager: [upload(editor, file)] returns the
    placeholder node. *)
Record ImageManager : Type := mkImageManager {
  upload : Editor → File → Node;
}.

Inductive ClickHandler : Type :=
| TemplateClick (name : string)
| OnCommandBarItemClick.

(** [subMenuProps] of an item, over the type of the nested items.
    [calloutProps] is [{ className }]. *)
Record SubMenuProps (I : Type) : Type := mkSubMenu {
  items : option (list (option I));
  calloutProps : option (option string);
  onDismiss : option string;
}.
Arguments mkSubMenu {I} _ _ _.
Arguments items {I} _.
Arguments calloutProps {I} _.
Arguments onDismiss {I} _.

(** [OutOfBoxCommandBarItem], which is also the [IContextualMenuItem] handed
    to the widget. [handleChange] is given by what it does to the editor. *)
#[warnings="-register-all"]
Inductive OutOfBoxCommandBarItem : Type := mkItem {
  key : string;
  name : option string;
  title : option string;
  checked : option bool;
  className : option string;
  disabled : option bool;
  iconOnly : option bool;
  onClick : option ClickHandler;
  getChecked : option (FormatState → bool);
  getSelected : option (FormatState → bool);
  getDisabled : option (FormatState → bool);
  handleChange : option (Editor → Editor);
  subMenuProps : option (SubMenuProps OutOfBoxCommandBarItem);
}.

Record RoosterCommandBarProps : Type := mkProps {
  imageManager : option ImageManager;
  strings : option (gmap string string);
  calloutClassName : option string;
  calloutOnDismiss : option string;
  visibleButtonKeys : option (list string);
}.

Inductive Effect : Type :=
| RegisterRoosterCommandBar
| UnregisterRoosterCommandBar
| AsyncDispose
| SetState (formatState : FormatState)
| HandleChange (itemKey : string)
| FileInputClick
| ImageManagerUpload (file : File)
| InsertNode (node : Node)
| TriggerContentChangedEvent (source : string)
| AddUndoSnapshot
| InsertImage (file : File).

#[global] Instance Effect_eq_dec : EqDecision Effect.
Proof. solve_decision. Defined.

(** The reference the component keeps in [_async]; the object it points to
    lives in [asyncObject], where the debounced closure reaches it too. *)
Inductive AsyncRef : Type := asyncRef.

(** The component instance: React state, private fields, and the outside
    world its methods touch: the editor the plugin brokers at the moment
    ([roosterCommandBarPlugin.getEditor()]), the Async object and the trace
    of calls, oldest first. *)
Record RoosterCommandBar : Type := mkBar {
  formatState : FormatState;
  _async : option AsyncRef;
  _fileInput : option HTMLInputElement;
  _buttonKeys : list string;
  asyncObject : Async.t;
  pluginEditor : option Editor;
  trace : list Effect;
}.

Definition set_formatState (f : FormatState) (st : RoosterCommandBar) :=
  mkBar f (_async st) (_fileInput st) (_buttonKeys st) (asyncObject st)
    (pluginEditor st) (trace st).
Definition set_async (a : option AsyncRef) (st : RoosterCommandBar) :=
  mkBar (formatState st) a (_fileInput st) (_buttonKeys st) (asyncObject st)
    (pluginEditor st) (trace st).
Definition set_fileInput (i : option HTMLInputElement) (st : RoosterCommandBar) :=
  mkBar (formatState st) (_async st) i (_buttonKeys st) (asyncObject st)
    (pluginEditor st) (trace st).
Definition set_buttonKeys (k : list string) (st : RoosterCommandBar) :=
  mkBar (formatState st) (_async st) (_fileInput st) k (asyncObject st)
    (pluginEditor st) (trace st).
Definition set_asyncObject (a : Async.t) (st : RoosterCommandBar) :=
  mkBar (formatState st) (_async st) (_fileInput st) (_buttonKeys st) a
    (pluginEditor st) (trace st).
Definition set_pluginEditor (e : option Editor) (st : RoosterCommandBar) :=
  mkBar (formatState st) (_async st) (_fileInput st) (_buttonKeys st) (asyncObject st)
    e (trace st).
Definition log (e : Effect) (st : RoosterCommandBar) :=
  mkBar (formatState st) (_async st) (_fileInput st) (_buttonKeys st) (asyncObject st)
    (pluginEditor st) (trace st ++ [e]).

Definition emit (e : Effect) : M RoosterCommandBar unit := modify (log e).

(** How often an effect occurs in a trace. *)
Definition occurrences (e : Effect) (tr : list Effect) : nat :=
  length (filter (λ x, x = e) tr).

Definition is_SetState (e : Effect) : bool :=
  match e with SetState _ => true | _ => false end.
(** Number of [setState] calls so far. *)
Definition setStates (st : RoosterCommandBar) : nat :=
  length (filter (λ e, is_SetState e = true) (trace st)).

(** [css({ "is-selected": selected })]. *)
Definition css_is_selected (selected : bool) : string :=
  if selected then "is-selected" else "".

Section WithRegistry.

(** The registry of [../utils/OutOfBoxCommandBarItem]: the list of item
    templates and the map from key to template are parameters of the
    development. *)
Variable OutOfBoxCommandBarItems : list OutOfBoxCommandBarItem.
Variable OutOfBoxCommandBarItemMap : gmap string OutOfBoxCommandBarItem.

Definition _initButtonKeys (p : RoosterCommandBarProps) : M RoosterCommandBar unit :=
  modify (set_buttonKeys
            (match visibleButtonKeys p with
             | Some keys => keys
             | None => map key OutOfBoxCommandBarItems
             end)).

(** The constructor. What [createFormatState()] of roosterjs-react-editor
    returns is the parameter [initialFormatState]. *)
Definition constructor (initialFormatState : FormatState) (p : RoosterCommandBarProps)
    : RoosterCommandBar :=
  exec (_initButtonKeys p)
    (mkBar initialFormatState (Some asyncRef) None [] Async.create None []).

(** The copy [_getMenuItem] makes of a template, with the current format
    state and the caller's strings applied, submenu items included. *)
Fixpoint menuItemCopy (p : RoosterCommandBarProps) (fs : FormatState)
    (commandBarItem : OutOfBoxCommandBarItem) : OutOfBoxCommandBarItem :=
  match commandBarItem with
  | mkItem k nm ti ch cn di io oc gc gs gd hc smp =>
      let ch1 := match gc with Some f => Some (f fs) | None => ch end in
      let cn1 := match gs with Some f => Some (css_is_selected (f fs)) | None => cn end in
      let di1 := match gd with Some f => Some (f fs) | None => di end in
      let nm1 :=
        match strings p with
        | Some strs =>
            match strs !! k with
            | Some s => if truthy_string s then Some s else nm
            | None => nm
            end
        | None => nm
        end in
      let ti1 :=
        match nm1, ti with
        | Some n, None => if truthy_string n then Some n else ti
        | _, _ => ti
        end in
      let smp1 :=
        match smp with
        | Some sm =>
            match items sm with
            | Some its =>
                Some (mkSubMenu
                        (Some (map (λ o, match o with
                                         | Some sub => Some (menuItemCopy p fs sub)
                                         | None => None
                                         end) its))
                        (Some (calloutClassName p))
                        (calloutOnDismiss p))
            | None => smp
            end
        | None => smp
        end in
      mkItem k nm1 ti1 ch1 cn1 di1 (Some true) (Some OnCommandBarItemClick)
        gc gs gd hc smp1
  end.

(** [_getMenuItem]: [None] stands for a missing template ([undefined]) on
    the way in and for [null] on the way out. *)
Definition _getMenuItem (p : RoosterCommandBarProps) (st : RoosterCommandBar)
    (commandBarItem : option OutOfBoxCommandBarItem) : option OutOfBoxCommandBarItem :=
  match commandBarItem with
  | None => None
  | Some it => Some (menuItemCopy p (formatState st) it)
  end.

(** [_createItems]: map every button key through the registry and
    [_getMenuItem], then drop the falsy results. *)
Definition _createItems (p : RoosterCommandBarProps) (st : RoosterCommandBar)
    : list OutOfBoxCommandBarItem :=
  omap id (map (λ k, _getMenuItem p st (OutOfBoxCommandBarItemMap !! k)) (_buttonKeys st)).

(** The [for (const key in formatState)] loop of [_isFormatStateChanged],
    over the entries of the current format state. *)
Fixpoint for_in_changed (entries : list (string * JsValue)) (newState : FormatState) : bool :=
  match entries with
  | [] => false
  | (k, v) :: rest =>
      if strict_neq v (prop newState k) then true else for_in_changed rest newState
  end.

Definition _isFormatStateChanged (st : RoosterCommandBar) (newState : FormatState) : bool :=
  for_in_changed (map_to_list (formatState st)) newState.

Definition _updateFormatState : M RoosterCommandBar unit :=
  st <- get ;;
  let editor := pluginEditor st in
  let polled := match editor with Some e => Some (getFormatState e) | None => None end in
  match polled with
  | Some newState =>
      if _isFormatStateChanged st newState
      then emit (SetState newState) ;;; modify (set_formatState newState)
      else ret tt
  | None => ret tt
  end.

(** [_updateFormatStateDebounced()]. *)
Definition _updateFormatStateDebounced : M RoosterCommandBar unit :=
  modify (λ st, set_asyncObject (Async.debounced (asyncObject st)) st).

Definition refreshFormatState : M RoosterCommandBar unit :=
  _updateFormatStateDebounced.

(** The debounce timer runs out. *)
Definition timerExpires : M RoosterCommandBar unit :=
  st <- get ;;
  let '(due, a) := Async.expire (asyncObject st) in
  modify (set_asyncObject a) ;;;
  if due then _updateFormatState else ret tt.

Definition componentDidMount : M RoosterCommandBar unit :=
  emit RegisterRoosterCommandBar.

Definition componentWillUnmount : M RoosterCommandBar unit :=
  emit UnregisterRoosterCommandBar ;;;
  st <- get ;;
  match _async st with
  | Some asyncRef =>
      emit AsyncDispose ;;;
      modify (λ st', set_asyncObject (Async.dispose (asyncObject st')) st') ;;;
      modify (set_async None)
  | None => ret tt
  end.

Definition componentWillUpdate (nextProps : RoosterCommandBarProps) : M RoosterCommandBar unit :=
  _initButtonKeys nextProps.

Definition _fileInputOnRef (ref : option HTMLInputElement) : M RoosterCommandBar unit :=
  modify (set_fileInput ref).

Definition _fileInputOnChange (p : RoosterCommandBarProps) : M RoosterCommandBar unit :=
  st <- get ;;
  let editor := pluginEditor st in
  match _fileInput st with
  | None => throw "TypeError"
  | Some input =>
      match editor, head (files input) with
      | Some ed, Some file =>
          if negb (isDisposed ed) then
            match imageManager p with
            | Some manager =>
                emit (ImageManagerUpload file) ;;;
                let placeholder := upload manager ed file in
                emit (InsertNode placeholder) ;;;
                emit (TriggerContentChangedEvent "Format") ;;;
                emit AddUndoSnapshot
            | None => emit (InsertImage file)
            end ;;;
            modify (set_fileInput (Some (mkInput (files input) "")))
          else ret tt
      | _, _ => ret tt
      end
  end.

Definition _onCommandBarItemClick (item : OutOfBoxCommandBarItem) : M RoosterCommandBar unit :=
  st <- get ;;
  match pluginEditor st, handleChange item with
  | Some ed, Some change =>
      emit (HandleChange (key item)) ;;;
      modify (set_pluginEditor (Some (change ed)))
  | _, _ => ret tt
  end ;;;
  (if String.eqb (key item) "photo"
   then st' <- get ;;
        match _fileInput st' with
        | Some _ => emit FileInputClick
        | None => throw "TypeError"
        end
   else ret tt) ;;;
  _updateFormatState.

(** What can happen to a command bar after construction. [EditorChanges] is
    the world moving on: the plugin brokers another editor, or the selection
    and with it the reported format state change. *)
Inductive Event : Type :=
| DidMount
| WillUnmount
| WillUpdate (nextProps : RoosterCommandBarProps)
| RefreshFormatState
| TimerExpires
| FileInputRef (ref : option HTMLInputElement)
| FileInputChange (p : RoosterCommandBarProps)
| ItemClick (item : OutOfBoxCommandBarItem)
| EditorChanges (editor : option Editor).

Definition handle (ev : Event) : M RoosterCommandBar unit :=
  match ev with
  | DidMount => componentDidMount
  | WillUnmount => componentWillUnmount
  | WillUpdate nextProps => componentWillUpdate nextProps
  | RefreshFormatState => refreshFormatState
  | TimerExpires => timerExpires
  | FileInputRef ref => _fileInputOnRef ref
  | FileInputChange p => _fileInputOnChange p
  | ItemClick item => _onCommandBarItemClick item
  | EditorChanges editor => modify (set_pluginEditor editor)
  end.

Fixpoint run (evs : list Event) (st : RoosterCommandBar) : RoosterCommandBar :=
  match evs with
  | [] => st
  | ev :: rest => run rest (exec (handle ev) st)
  end.

End WithRegistry.

(** Events other than a click on an item of the bar. *)
Definition is_ItemClick (ev : Event) : bool :=
  match ev with ItemClick _ => true | _ => false end.
Definition without_clicks (evs : list Event) : bool :=
  forallb (λ ev, negb (is_ItemClick ev)) evs.

(** Sample data: a selection that is not bold, and an editor whose selection
    is. *)
Definition plainFormat : FormatState := {[ "bold" := JBool false ]}.
Definition boldEditor : Editor := mkEditor 0 false {[ "bold" := JBool true ]}.

(** A command bar whose current format state is [cur] while the plugin
    brokers an editor that reports [new]. *)
Definition polling (cur new : FormatState) : RoosterCommandBar :=
  run [] [EditorChanges (Some (mkEditor 0 false new))]
    (constructor [] cur (mkProps None None None None None)).

(** A command bar with a live editor, right after the user picked [file]
    in the hidden input. *)
Definition picked (file : File) : RoosterCommandBar :=
  run [] [EditorChanges (Some (mkEditor 0 false ∅));
          FileInputRef (Some (mkInput [file] file))]
    (constructor [] ∅ (mkProps None None None None None)).

(** A registry of two templates, and props that ask for three keys, the
    middle one unknown. *)
Definition boldItem : OutOfBoxCommandBarItem :=
  mkItem "bold" (Some "Bold") None None None None None None
    (Some (λ fs, bool_decide (prop fs "bold" = JBool true))) None None
    (Some (λ ed, ed)) None.
Definition photoItem : OutOfBoxCommandBarItem :=
  mkItem "photo" (Some "Insert image") None None None None None None
    None None None None None.
Definition sampleRegistry : gmap string OutOfBoxCommandBarItem :=
  {[ "bold" := boldItem; "photo" := photoItem ]}.
Definition sampleKeys : list string := ["photo"; "sparkle"; "bold"].

(** Once the component has given up its Async object, that object is
    disposed and no timer is left. *)
Definition released_is_disposed (st : RoosterCommandBar) : Prop :=
  _async st = None → asyncObject st = Async.dispose (asyncObject st).

(** ** Observations on item trees *)

(** [every P item]: [P] holds of the item and of every submenu item below
    it, at any depth. *)
Fixpoint every (P : OutOfBoxCommandBarItem → bool) (item : OutOfBoxCommandBarItem) : bool :=
  match item with
  | mkItem k nm ti ch cn di io oc gc gs gd hc smp =>
      P (mkItem k nm ti ch cn di io oc gc gs gd hc smp)
      && match smp with
         | Some sm =>
             match items sm with
             | Some its =>
                 forallb (λ o, match o with Some sub => every P sub | None => true end) its
             | None => true
             end
         | None => true
         end
  end.

(** An item as [_getMenuItem] hands it to the widget: icon only, clicks
    routed to [_onCommandBarItemClick], and a submenu, if it has items,
    carrying the caller's callout class and dismiss callback. *)
Definition is_wired (p : RoosterCommandBarProps) (item : OutOfBoxCommandBarItem) : bool :=
  match iconOnly item, onClick item with
  | Some true, Some OnCommandBarItemClick =>
      match subMenuProps item with
      | Some sm =>
          match items sm with
          | Some _ =>
              bool_decide (calloutProps sm = Some (calloutClassName p))
              && bool_decide (onDismiss sm = calloutOnDismiss p)
          | None => true
          end
      | None => true
      end
  | _, _ => false
  end.

(** The keys of an item tree: the key of the item and, where it has submenu
    items, the trees of these, a missing entry staying in its place. *)
#[warnings="-register-all"]
Inductive KeyTree : Type :=
| KeyNode (k : string) (below : option (list (option KeyTree))).

Fixpoint keyTree (item : OutOfBoxCommandBarItem) : KeyTree :=
  match item with
  | mkItem k nm ti ch cn di io oc gc gs gd hc smp =>
      KeyNode k
        match smp with
        | Some sm =>
            match items sm with
            | Some its =>
                Some (map (λ o, match o with Some sub => Some (keyTree sub) | None => None end) its)
            | None => None
            end
        | None => None
        end
  end.

(** [P] holds of every submenu item directly below. *)
Definition holds_below (P : OutOfBoxCommandBarItem → Prop)
    (smp : option (SubMenuProps OutOfBoxCommandBarItem)) : Prop :=
  match smp with
  | Some sm =>
      match items sm with
      | Some its => Forall (λ o, match o with Some sub => P sub | None => True end) its
      | None => True
      end
  | None => True
  end.

(** ** Observations on runs of the bar *)

Definition is_WillUnmount (ev : Event) : bool :=
  match ev with WillUnmount => true | _ => false end.

(** Number of unmounts among the events of a run. *)
Definition unmounts (evs : list Event) : nat :=
  length (filter (λ ev, is_WillUnmount ev = true) evs).

(** The Async object was disposed once if the component has given it up,
    and not at all if it still holds it. *)
Definition dispose_accounting (st : RoosterCommandBar) : Prop :=
  occurrences AsyncDispose (trace st) = match _async st with Some _ => 0 | None => 1 end.

End RoosterCommandBar.

(** * Proof automation shared by the two components *)

(** Case analysis on every condition the unfolded method tests, innermost
    first. *)
Ltac innermost_case t :=
  match t with
  | context [match ?x with _ => _ end] => innermost_case x
  | context [if ?b then _ else _] => innermost_case b
  | context [match ?x with _ => _ end] => destruct x eqn:?
  | context [if ?b then _ else _] => destruct b eqn:?
  end.

Ltac split_cases :=
  repeat (simpl in *; match goal with |- ?g => innermost_case g end);
  simpl in *.

(** Turn the outcomes of the boolean tests into facts. *)
Ltac test_facts :=
  repeat match goal with
    | H : bool_decide _ = true |- _ => apply bool_decide_eq_true in H
    | H : bool_decide _ = false |- _ => apply bool_decide_eq_false in H
    | H : _ || _ = false |- _ => apply orb_false_iff in H; destruct H
    | H : _ && _ = true |- _ => apply andb_true_iff in H; destruct H
    | H : negb _ = true |- _ => apply negb_true_iff in H
    | H : negb _ = false |- _ => apply negb_false_iff in H
    end.

(** * Properties of the Editable Surface *)

Module LeanRoosterSpec.
Import LeanRooster.

(** Unfold a method down to the state it returns. *)
Ltac unfold_methods :=
  unfold exec, result, handle, switch, set_mode_property, componentDidMount,
    componentWillUnmount, focus, reloadContent, _onMouseDown, _onMouseUp,
    _onBlur, _onFocus, _trySwithToEditMode, _trySwitchToViewMode,
    _updateContentToViewState, callOnBeforeModeChange, newEditor, getContent,
    _setInitialReactContent, emit, bind, ret, get, modify, throw in *.

(** ** Switching modes *)

(** C5: switchToEdit on a surface that is already in Edit mode, or that is
    marked read-only, returns [false] and leaves the whole state as it was:
    mode, engine and view state are unchanged and the trace gains no call,
    so neither [onBeforeModeChange] nor [onAfterModeChange] is invoked. *)
Theorem switchToEdit_noop (p : LeanRoosterProps) (st : LeanRooster) :
  mode st = Edit ∨ truthy (readonly p) = true →
  _trySwithToEditMode p st = (Normal (Some false), st).
Proof.
  unfold mode. intros H. unfold_methods.
  destruct H as [-> | ->]; simpl.
  - reflexivity.
  - by rewrite orb_true_r.
Qed.

Lemma switchToEdit_noop_witness :
  let editing := mkLeanRooster (Some (mkEditor 0 false ∅)) Edit (Some "<p>a</p>")
                   (mkViewState (Some "<p>a</p>") false) "<p>a</p>" [NewEditor 0] in
  let viewing := constructor (mkViewState (Some "<p>a</p>") false) in
  let readonlyProps := mkProps None None (Some true) None in
  _trySwithToEditMode defaultProps editing = (Normal (Some false), editing)
  ∧ _trySwithToEditMode readonlyProps viewing = (Normal (Some false), viewing).
Proof.
  split.
  - apply (switchToEdit_noop defaultProps). left. reflexivity.
  - apply (switchToEdit_noop (mkProps None None (Some true) None)). right. reflexivity.
Defined.


(** ** The engine instance across events *)

Lemma count_snoc (P : Effect → bool) (tr : list Effect) (e : Effect) :
  length (filter (λ x, P x = true) (tr ++ [e]))
  = length (filter (λ x, P x = true) tr) + (if P e then 1 else 0).
Proof.
  rewrite filter_app, length_app. f_equal.
  destruct (P e) eqn:He.
  - by rewrite filter_cons_True.
  - rewrite filter_cons_False; [done | by rewrite He].
Qed.

Ltac count_effects :=
  unfold engine_accounting, constructed, disposed, afterCalls in *; simpl in *;
  rewrite ?count_snoc in *; simpl in *.

Lemma handle_engine_accounting p ev st :
  engine_accounting st → engine_accounting (exec (handle p ev) st).
Proof.
  intros Hinv. destruct ev; unfold_methods; split_cases; count_effects.
  all: test_facts; destruct (_editor st); simplify_eq; lia.
Qed.


Lemma constructor_engine_accounting vs : engine_accounting (constructor vs).
Proof. reflexivity. Qed.

Lemma run_engine_accounting evs st :
  engine_accounting st → engine_accounting (run evs st).
Proof.
  revert st. induction evs as [| [p ev] rest IH]; intros st Hinv; simpl.
  - exact Hinv.
  - apply IH, handle_engine_accounting, Hinv.
Qed.

(** An event never constructs an engine while the surface holds one. *)
Lemma handle_constructs_only_without_engine p ev st :
  is_Some (_editor st) → constructed (exec (handle p ev) st) = constructed st.
Proof.
  intros [ed Hed]. destruct ev; unfold_methods; rewrite ?Hed; split_cases; count_effects.
  all: test_facts; simplify_eq; lia.
Qed.

(** Only unmounting disposes an engine. *)
Lemma handle_disposes_only_on_unmount p ev st :
  is_WillUnmount ev = false → disposed (exec (handle p ev) st) = disposed st.
Proof.
  intros Hev. destruct ev; try discriminate Hev;
    unfold_methods; split_cases; count_effects; lia.
Qed.

Lemma run_disposes_only_on_unmount evs st :
  without_unmount evs = true → disposed (run evs st) = disposed st.
Proof.
  revert st. induction evs as [| [p ev] rest IH]; intros st Hevs; simpl in *.
  - reflexivity.
  - apply andb_true_iff in Hevs as [Hev Hrest].
    rewrite IH by exact Hrest.
    apply handle_disposes_only_on_unmount. by apply negb_true_iff.
Qed.

Lemma handle_edit_has_engine p ev st :
  is_WillUnmount ev = false →
  edit_has_engine st → edit_has_engine (exec (handle p ev) st).
Proof.
  unfold edit_has_engine. intros Hev Hinv.
  destruct ev; try discriminate Hev; unfold_methods; split_cases.
  all: test_facts; intros Hm; simplify_eq; eauto.
  all: destruct (Hinv Hm) as [ed Hed]; congruence.
Qed.

Lemma run_edit_has_engine evs st :
  without_unmount evs = true →
  edit_has_engine st → edit_has_engine (run evs st).
Proof.
  revert st. induction evs as [| [p ev] rest IH]; intros st Hevs Hinv; simpl in *.
  - exact Hinv.
  - apply andb_true_iff in Hevs as [Hev Hrest].
    apply IH; [exact Hrest |].
    apply handle_edit_has_engine; [by apply negb_true_iff | exact Hinv].
Qed.

(** C1, as the specification states it, fails: a switch to Edit followed by
    a switch to View leaves the surface in View mode with the engine of the
    Edit session still held, so "mode is Edit iff an engine exists" is false
    in that state. *)
Lemma view_mode_keeps_engine :
  let st := run [(defaultProps, SetMode Edit); (defaultProps, SetMode View)]
              (constructor (mkViewState (Some "<p>a</p>") false)) in
  mode st = View
  ∧ _editor st = Some (mkEditor 0 false ∅)
  ∧ ¬ (mode st = Edit ↔ is_Some (_editor st)).
Proof.
  vm_compute. split; [reflexivity |]. split; [reflexivity |].
  intros [_ H]. discriminate H. eauto.
Qed.

(** C1, amended: after any sequence of events that does not unmount the
    surface (the switchToEdit and switchToView calls of the [mode] setter
    among them), mode Edit implies that an engine instance is held. The
    converse is not claimed: a switch to View keeps the engine. *)
Theorem edit_mode_implies_engine
    (vs : EditorViewState) (evs : list (LeanRoosterProps * Event)) :
  without_unmount evs = true →
  mode (run evs (constructor vs)) = Edit →
  is_Some (_editor (run evs (constructor vs))).
Proof.
  intros Hevs. apply (run_edit_has_engine evs (constructor vs) Hevs).
  intros H. discriminate H.
Qed.

Lemma edit_mode_implies_engine_witness :
  is_Some (_editor (run [(defaultProps, MouseDown); (defaultProps, SetMode View);
                         (defaultProps, FocusIn)]
                      (constructor (mkViewState (Some "<p>a</p>") false)))).
Proof.
  apply (edit_mode_implies_engine (mkViewState (Some "<p>a</p>") false)
           [(defaultProps, MouseDown); (defaultProps, SetMode View);
            (defaultProps, FocusIn)]).
  - reflexivity.
  - reflexivity.
Defined.

(** C4: after any sequence of events on one surface, the engine instances
    constructed and not yet disposed number one if the surface holds an
    engine and zero otherwise, hence at most one; no event constructs an
    engine while one is held; and as long as the surface is not unmounted,
    switching to Edit again, with or without a switch to View in between,
    never constructs a second instance. *)
Theorem at_most_one_engine
    (vs : EditorViewState) (evs : list (LeanRoosterProps * Event)) :
  let st := run evs (constructor vs) in
  live st = (match _editor st with Some _ => 1 | None => 0 end)
  ∧ live st ≤ 1
  ∧ (∀ p ev, is_Some (_editor st) → constructed (exec (handle p ev) st) = constructed st)
  ∧ (without_unmount evs = true → constructed st ≤ 1).
Proof.
  intros st.
  assert (Hacc : engine_accounting st)
    by apply run_engine_accounting, constructor_engine_accounting.
  unfold engine_accounting in Hacc. unfold live.
  split; [lia |]. split; [destruct (_editor st); lia |].
  split; [intros p ev; apply handle_constructs_only_without_engine |].
  intros Hevs.
  pose proof (run_disposes_only_on_unmount evs (constructor vs) Hevs) as Hd.
  fold st in Hd. change (disposed (constructor vs)) with 0 in Hd.
  destruct (_editor st); lia.
Qed.

Lemma at_most_one_engine_witness :
  constructed (run [(defaultProps, SetMode Edit); (defaultProps, SetMode Edit);
                    (defaultProps, SetMode View); (defaultProps, SetMode Edit)]
                 (constructor (mkViewState (Some "<p>a</p>") false))) ≤ 1.
Proof.
  apply (at_most_one_engine (mkViewState (Some "<p>a</p>") false)
           [(defaultProps, SetMode Edit); (defaultProps, SetMode Edit);
            (defaultProps, SetMode View); (defaultProps, SetMode Edit)]).
  reflexivity.
Defined.


(** ** The veto callback *)

(** C6: when the parent's [onBeforeModeChange] answers [true] for the mode a
    switch aims at, the switch (to Edit or to View) leaves mode, engine and
    view state as they were, constructs no engine, does not invoke
    [onAfterModeChange], and returns [false] or [undefined]. *)
Theorem veto_blocks_switch
    (p : LeanRoosterProps) (s : Switch) (st : LeanRooster)
    (f : LeanRoosterModes → bool) :
  onBeforeModeChange p = Some f →
  f (target s) = true →
  let st' := exec (switch p s) st in
  mode st' = mode st
  ∧ _editor st' = _editor st
  ∧ viewState st' = viewState st
  ∧ constructed st' = constructed st
  ∧ afterCalls st' = afterCalls st
  ∧ (result (switch p s) st = Normal (Some false)
     ∨ result (switch p s) st = Normal None).
Proof.
  intros Hp Hf. unfold mode.
  destruct s; unfold_methods; rewrite Hp; simpl in *; rewrite Hf.
  all: split_cases; count_effects; repeat split; eauto; lia.
Qed.

Lemma veto_blocks_switch_witness :
  let st := constructor (mkViewState (Some "<p>a</p>") false) in
  let st' := exec (switch vetoAll SwitchToEdit) st in
  mode st' = View
  ∧ _editor st' = None
  ∧ constructed st' = 0
  ∧ afterCalls st' = 0
  ∧ result (switch vetoAll SwitchToEdit) st = Normal None.
Proof.
  pose proof (veto_blocks_switch vetoAll SwitchToEdit
                (constructor (mkViewState (Some "<p>a</p>") false))
                (λ _, true) eq_refl eq_refl) as (Hm & He & _ & Hc & Ha & _).
  simpl. repeat split; first [exact Hm | exact He | exact Hc | exact Ha | reflexivity].
Defined.

(** ** Flushing content to the view state *)

(** C10: on a surface for which no engine was ever constructed, a blur and
    an unmount both complete normally and leave the parent's view-state
    object exactly as it was, [content] and [isDirty] alike. *)
Theorem no_engine_no_flush
    (vs : EditorViewState) (evs : list (LeanRoosterProps * Event))
    (p : LeanRoosterProps) :
  let st := run evs (constructor vs) in
  constructed st = 0 →
  (viewState (exec (_onBlur p) st) = viewState st
   ∧ result (_onBlur p) st = Normal tt)
  ∧ (viewState (exec (componentWillUnmount p) st) = viewState st
     ∧ result (componentWillUnmount p) st = Normal tt).
Proof.
  intros st Hc.
  assert (Hacc : engine_accounting st)
    by apply run_engine_accounting, constructor_engine_accounting.
  unfold engine_accounting in Hacc.
  assert (Hed : _editor st = None) by (destruct (_editor st); [lia | reflexivity]).
  unfold_methods. rewrite Hed. simpl. rewrite Hed. simpl. auto.
Qed.

Lemma no_engine_no_flush_witness :
  let st := run [(vetoAll, MouseDown); (vetoAll, UserInput "<p>b</p>")]
              (constructor (mkViewState (Some "<p>a</p>") false)) in
  viewState (exec (_onBlur defaultProps) st) = mkViewState (Some "<p>a</p>") false
  ∧ viewState (exec (componentWillUnmount defaultProps) st)
    = mkViewState (Some "<p>a</p>") false.
Proof.
  pose proof (no_engine_no_flush (mkViewState (Some "<p>a</p>") false)
                [(vetoAll, MouseDown); (vetoAll, UserInput "<p>b</p>")]
                defaultProps eq_refl) as [[Hb _] [Hu _]].
  split; [exact Hb | exact Hu].
Defined.

(** What the default [_updateViewState] leaves in the view state. *)
Lemma _updateViewState_content st vs c init :
  content (_updateViewState st vs c init) = Some c.
Proof.
  unfold _updateViewState. split_cases; test_facts; try reflexivity.
  destruct (decide (content vs = Some c)); [assumption | contradiction].
Qed.

(** C2, as the specification states it, fails. The first pointer-down is
    vetoed, the user types into the content-editable div, and a second
    pointer-down switches to Edit: the initializing flush copies the typed
    markup into the view state without touching [isDirty]. The blur that
    follows finds the view-state content equal to the engine content and
    leaves [isDirty] false, although the content differs from the initial
    markup. *)
Lemma blur_keeps_stale_isDirty :
  let st := run [(vetoAll, MouseDown); (defaultProps, UserInput "<p>b</p>");
                 (defaultProps, MouseDown)]
              (constructor (mkViewState (Some "<p>a</p>") false)) in
  let vs' := viewState (exec (_onBlur defaultProps) st) in
  is_Some (_editor st)
  ∧ innerHTML st = "<p>b</p>"
  ∧ _initialContent st = Some "<p>a</p>"
  ∧ content vs' = Some "<p>b</p>"
  ∧ isDirty vs' = false
  ∧ ¬ (isDirty vs' = true ↔ "<p>b</p>" ≠ "<p>a</p>").
Proof.
  vm_compute. repeat split; eauto.
  intros [_ H]. discriminate H. intros E. discriminate E.
Qed.

(** C2, amended: for a blur on a surface that holds an engine whose current
    content is [c], uses the default [_updateViewState] and was rendered
    with non-empty initial markup [orig]: afterwards the view-state content
    is [c]; if the view-state content differed from [c] before the blur,
    [isDirty] is set to true iff [c] differs from [orig]; and if the
    view-state content already was [c], the view state is left unchanged,
    [isDirty] included. *)
Theorem blur_flushes_content
    (p : LeanRoosterProps) (st : LeanRooster) (ed : Editor) (orig : string) :
  updateViewState p = None →
  _editor st = Some ed →
  _initialContent st = Some orig →
  let c := innerHTML st in
  let vs' := viewState (exec (_onBlur p) st) in
  content vs' = Some c
  ∧ (content (viewState st) ≠ Some c → (isDirty vs' = true ↔ c ≠ orig))
  ∧ (content (viewState st) = Some c → vs' = viewState st).
Proof.
  intros Hp Hed Horig c vs'.
  assert (Hvs : vs' = _updateViewState st (viewState st) c None).
  { unfold vs'. unfold_methods. rewrite Hed. simpl. rewrite Hp. reflexivity. }
  rewrite Hvs. split; [apply _updateViewState_content |].
  unfold _updateViewState. rewrite Horig. simpl. split; intros Hc.
  - rewrite bool_decide_eq_true_2 by exact Hc. simpl.
    rewrite bool_decide_eq_true. split; intros H; congruence.
  - rewrite bool_decide_eq_false_2 by (intros H; apply H, Hc). reflexivity.
Qed.

Lemma blur_flushes_content_witness :
  let st := run [(defaultProps, MouseDown); (defaultProps, UserInput "<p>b</p>")]
              (constructor (mkViewState (Some "<p>a</p>") false)) in
  viewState (exec (_onBlur defaultProps) st) = mkViewState (Some "<p>b</p>") true.
Proof.
  pose proof (blur_flushes_content defaultProps
                (run [(defaultProps, MouseDown); (defaultProps, UserInput "<p>b</p>")]
                   (constructor (mkViewState (Some "<p>a</p>") false)))
                (mkEditor 0 false ∅) "<p>a</p>" eq_refl eq_refl eq_refl)
    as (Hc & Hd & _).
  reflexivity.
Defined.

(** * Further properties of the Editable Surface *)

Lemma constructed_log_other e st :
  is_NewEditor e = false → constructed (log e st) = constructed st.
Proof.
  intros He. unfold constructed, log; simpl. rewrite count_snoc, He. lia.
Qed.

(** ** Successful switches *)

(** The first activation: in View mode, with no engine, not read-only and
    not vetoed, switchToEdit returns [true], constructs exactly one engine
    and holds it, flips the mode to Edit, and makes its calls in the order
    [onBeforeModeChange], [new Editor], [forceUpdate], [onAfterModeChange].
    With the default [_updateViewState] the engine content is copied into the
    view state and [isDirty] keeps its value. *)
Theorem first_activation (p : LeanRoosterProps) (st : LeanRooster) :
  _mode st = View →
  _editor st = None →
  truthy (readonly p) = false →
  vetoes p Edit = false →
  let st' := exec (_trySwithToEditMode p) st in
  result (_trySwithToEditMode p) st = Normal (Some true)
  ∧ _mode st' = Edit
  ∧ _editor st' = Some (mkEditor (constructed st) false ∅)
  ∧ trace st' = trace st ++ [OnBeforeModeChange Edit; NewEditor (constructed st);
                             ForceUpdate; OnAfterModeChange Edit]
  ∧ (updateViewState p = None →
     content (viewState st') = Some (innerHTML st)
     ∧ isDirty (viewState st') = isDirty (viewState st)).
Proof.
  unfold vetoes. intros Hm He Hr Hv.
  unfold_methods. rewrite Hm, Hr, He. simpl. rewrite Hv. simpl.
  change (constructed (log (OnBeforeModeChange Edit) st)) with
    (length (filter (λ e, is_NewEditor e = true) (trace st ++ [OnBeforeModeChange Edit]))).
  rewrite count_snoc. simpl. rewrite Nat.add_0_r. fold (constructed st).
  split; [reflexivity |]. split; [reflexivity |]. split; [reflexivity |]. split.
  - by rewrite <- !app_assoc.
  - intros Hu. rewrite Hu. simpl. split; [apply _updateViewState_content |].
    unfold _updateViewState. simpl. by destruct (bool_decide _).
Qed.

Lemma first_activation_witness :
  let st := constructor (mkViewState (Some "<p>a</p>") false) in
  let st' := exec (_trySwithToEditMode defaultProps) st in
  _editor st' = Some (mkEditor 0 false ∅)
  ∧ trace st' = [OnBeforeModeChange Edit; NewEditor 0; ForceUpdate; OnAfterModeChange Edit].
Proof.
  pose proof (first_activation defaultProps
                (constructor (mkViewState (Some "<p>a</p>") false))
                eq_refl eq_refl eq_refl eq_refl) as (_ & _ & He & Ht & _).
  split; [exact He | exact Ht].
Defined.

(** A later activation: in View mode with an engine held, a switchToEdit that
    is neither read-only nor vetoed returns [true], keeps the very same
    engine, constructs nothing, and calls [onBeforeModeChange],
    [forceUpdate], [onAfterModeChange] in that order. With the default
    [_updateViewState] the flush is a regular one: the view-state content
    becomes the engine content. *)
Theorem reactivation_reuses_engine
    (p : LeanRoosterProps) (st : LeanRooster) (ed : Editor) :
  _mode st = View →
  _editor st = Some ed →
  truthy (readonly p) = false →
  vetoes p Edit = false →
  let st' := exec (_trySwithToEditMode p) st in
  result (_trySwithToEditMode p) st = Normal (Some true)
  ∧ _mode st' = Edit
  ∧ _editor st' = Some ed
  ∧ trace st' = trace st ++ [OnBeforeModeChange Edit; ForceUpdate; OnAfterModeChange Edit]
  ∧ (updateViewState p = None → content (viewState st') = Some (innerHTML st)).
Proof.
  unfold vetoes. intros Hm He Hr Hv.
  unfold_methods. rewrite Hm, Hr, He. simpl. rewrite Hv. simpl. rewrite He. simpl.
  split; [reflexivity |]. split; [reflexivity |]. split; [exact He |]. split.
  - by rewrite <- !app_assoc.
  - intros Hu. rewrite Hu. simpl. apply _updateViewState_content.
Qed.

Lemma reactivation_reuses_engine_witness :
  let st := run [(defaultProps, SetMode Edit); (defaultProps, SetMode View)]
              (constructor (mkViewState (Some "<p>a</p>") false)) in
  _editor (exec (_trySwithToEditMode defaultProps) st) = Some (mkEditor 0 false ∅).
Proof.
  apply (reactivation_reuses_engine defaultProps
           (run [(defaultProps, SetMode Edit); (defaultProps, SetMode View)]
              (constructor (mkViewState (Some "<p>a</p>") false)))
           (mkEditor 0 false ∅) eq_refl eq_refl eq_refl eq_refl).
Defined.

(** A successful switch to View: in Edit mode and not vetoed, switchToView
    returns [true], flips the mode to View, keeps the engine, and calls
    [onBeforeModeChange], [forceUpdate], [onAfterModeChange] in that order.
    The content is flushed: with an engine held and the default
    [_updateViewState], the view-state content is the engine content
    afterwards. *)
Theorem switchToView_flushes_and_keeps_engine
    (p : LeanRoosterProps) (st : LeanRooster) :
  _mode st = Edit →
  vetoes p View = false →
  let st' := exec (_trySwitchToViewMode p) st in
  result (_trySwitchToViewMode p) st = Normal (Some true)
  ∧ _mode st' = View
  ∧ _editor st' = _editor st
  ∧ trace st' = trace st ++ [OnBeforeModeChange View; ForceUpdate; OnAfterModeChange View]
  ∧ (updateViewState p = None → is_Some (_editor st) →
     content (viewState st') = Some (innerHTML st)).
Proof.
  unfold vetoes. intros Hm Hv.
  unfold_methods. rewrite Hm. simpl. rewrite Hv. simpl.
  destruct (_editor st) as [ed |] eqn:He; simpl.
  - split; [reflexivity |]. split; [reflexivity |]. split; [congruence |].
    split; [by rewrite <- !app_assoc |].
    intros Hu _. rewrite Hu. simpl. apply _updateViewState_content.
  - split; [reflexivity |]. split; [reflexivity |]. split; [congruence |].
    split; [by rewrite <- !app_assoc |].
    intros _ [ed Hed]. discriminate Hed.
Qed.

Lemma switchToView_flushes_and_keeps_engine_witness :
  let st := run [(defaultProps, SetMode Edit); (defaultProps, UserInput "<p>b</p>")]
              (constructor (mkViewState (Some "<p>a</p>") false)) in
  content (viewState (exec (_trySwitchToViewMode defaultProps) st)) = Some "<p>b</p>".
Proof.
  apply (switchToView_flushes_and_keeps_engine defaultProps
           (run [(defaultProps, SetMode Edit); (defaultProps, UserInput "<p>b</p>")]
              (constructor (mkViewState (Some "<p>a</p>") false)))
           eq_refl eq_refl).
  - reflexivity.
  - eexists. reflexivity.
Defined.

(** Assigning to [mode] the mode the surface is already in changes nothing:
    no callback runs and the state is the same. *)
Theorem set_mode_to_current_mode_is_noop
    (p : LeanRoosterProps) (st : LeanRooster) (value : LeanRoosterModes) :
  mode st = value →
  set_mode_property p value st = (Normal tt, st).
Proof.
  unfold mode. intros <-. unfold_methods.
  destruct (_mode st) eqn:Hm; simpl; rewrite Hm; reflexivity.
Qed.

Lemma set_mode_to_current_mode_is_noop_witness :
  let st := constructor (mkViewState (Some "<p>a</p>") false) in
  set_mode_property vetoAll View st = (Normal tt, st).
Proof.
  apply (set_mode_to_current_mode_is_noop vetoAll
           (constructor (mkViewState (Some "<p>a</p>") false)) View eq_refl).
Defined.

(** ** Unmounting *)

(** After any run, unmounting leaves the surface without an engine and with
    no engine alive: a held engine is disposed, once, after the last flush;
    without an engine nothing happens at all. The mode is not reset. *)
Theorem unmount_releases_engine
    (vs : EditorViewState) (evs : list (LeanRoosterProps * Event))
    (p : LeanRoosterProps) :
  let st := run evs (constructor vs) in
  let st' := exec (componentWillUnmount p) st in
  _editor st' = None
  ∧ live st' = 0
  ∧ _mode st' = _mode st
  ∧ (∀ ed, _editor st = Some ed → trace st' = trace st ++ [EditorDispose (editorId ed)])
  ∧ (_editor st = None → st' = st).
Proof.
  intros st st'.
  assert (Hacc : engine_accounting st')
    by (apply (handle_engine_accounting p WillUnmount),
          run_engine_accounting, constructor_engine_accounting).
  assert (Hnone : _editor st' = None).
  { unfold st'. unfold_methods. destruct (_editor st) eqn:He; simpl; rewrite ?He; done. }
  unfold engine_accounting in Hacc. rewrite Hnone in Hacc.
  split; [exact Hnone |]. split; [unfold live; lia |].
  unfold st'. unfold_methods.
  destruct (_editor st) as [ed |] eqn:He; simpl; rewrite ?He; simpl.
  - split; [reflexivity |]. split; [| discriminate].
    intros ed' [= <-]. reflexivity.
  - split; [reflexivity |]. split; [discriminate | reflexivity].
Qed.

(** Unmounting twice is the same as unmounting once, whatever the props of
    the second call. *)
Theorem unmount_is_idempotent (p q : LeanRoosterProps) (st : LeanRooster) :
  exec (componentWillUnmount q) (exec (componentWillUnmount p) st)
  = exec (componentWillUnmount p) st.
Proof.
  unfold_methods.
  destruct (_editor st) as [ed |] eqn:He; repeat (progress (simpl; rewrite ?He)); reflexivity.
Qed.

(** ** What stays fixed while an engine is held *)

Lemma handle_keeps_engine p ev st ed :
  is_WillUnmount ev = false →
  _editor st = Some ed →
  _editor (exec (handle p ev) st) = Some ed
  ∧ _initialContent (exec (handle p ev) st) = _initialContent st.
Proof.
  intros Hev Hed. destruct ev; try discriminate Hev;
    unfold_methods; rewrite ?Hed; split_cases; rewrite ?Hed in *;
    test_facts; simplify_eq; auto.
Qed.

(** Once the surface holds an engine, and until it is unmounted, no event
    replaces or drops that engine, and none changes the initial markup the
    dirty flag is measured against. *)
Theorem engine_and_initial_markup_are_frozen
    (evs : list (LeanRoosterProps * Event)) (st : LeanRooster) (ed : Editor) :
  without_unmount evs = true →
  _editor st = Some ed →
  _editor (run evs st) = Some ed
  ∧ _initialContent (run evs st) = _initialContent st.
Proof.
  revert st. induction evs as [| [p ev] rest IH]; intros st Hevs Hed; simpl in *.
  - auto.
  - apply andb_true_iff in Hevs as [Hev Hrest]. apply negb_true_iff in Hev.
    destruct (handle_keeps_engine p ev st ed Hev Hed) as [Hed' Hic].
    destruct (IH _ Hrest Hed') as [H1 H2]. split; [exact H1 | congruence].
Qed.

Lemma engine_and_initial_markup_are_frozen_witness :
  let st := exec (_trySwithToEditMode defaultProps)
              (constructor (mkViewState (Some "<p>a</p>") false)) in
  let evs := [(defaultProps, UserInput ""); (defaultProps, Blur);
              (defaultProps, SetMode View); (defaultProps, ReloadContent)] in
  _editor (run evs st) = Some (mkEditor 0 false ∅)
  ∧ _initialContent (run evs st) = Some "<p>a</p>".
Proof.
  apply (engine_and_initial_markup_are_frozen
           [(defaultProps, UserInput ""); (defaultProps, Blur);
            (defaultProps, SetMode View); (defaultProps, ReloadContent)]
           (exec (_trySwithToEditMode defaultProps)
              (constructor (mkViewState (Some "<p>a</p>") false)))
           (mkEditor 0 false ∅) eq_refl eq_refl).
Defined.

(** ** Read-only surfaces *)

Lemma handle_readonly_inert p ev st :
  truthy (readonly p) = true →
  _mode st = View → _editor st = None →
  let st' := exec (handle p ev) st in
  _mode st' = View ∧ _editor st' = None
  ∧ viewState st' = viewState st ∧ constructed st' = constructed st.
Proof.
  intros Hr Hm He. destruct ev; unfold_methods; rewrite ?Hr, ?Hm, ?He; simpl;
    rewrite ?orb_true_r; simpl; rewrite ?Hm, ?He; simpl.
  all: try (destruct value; simpl; rewrite ?Hr, ?Hm, ?He, ?orb_true_r; simpl).
  all: unfold constructed; simpl; rewrite ?count_snoc; simpl; repeat split; try lia; auto.
Qed.

(** A surface that is read-only throughout never leaves View mode, never
    constructs an engine and never writes the view state, whatever events
    arrive. *)
Theorem readonly_surface_is_inert
    (vs : EditorViewState) (evs : list (LeanRoosterProps * Event)) :
  always_readonly evs = true →
  let st := run evs (constructor vs) in
  _mode st = View ∧ _editor st = None ∧ viewState st = vs ∧ constructed st = 0.
Proof.
  intros Hevs.
  assert (Hgen : ∀ st0, _mode st0 = View → _editor st0 = None →
            _mode (run evs st0) = View ∧ _editor (run evs st0) = None
            ∧ viewState (run evs st0) = viewState st0
            ∧ constructed (run evs st0) = constructed st0).
  { induction evs as [| [p ev] rest IH]; intros st0 Hm He; simpl in *.
    - auto.
    - apply andb_true_iff in Hevs as [Hr Hrest].
      destruct (handle_readonly_inert p ev st0 Hr Hm He) as (Hm' & He' & Hv' & Hc').
      destruct (IH Hrest _ Hm' He') as (H1 & H2 & H3 & H4).
      repeat split; congruence. }
  exact (Hgen (constructor vs) eq_refl eq_refl).
Qed.

Lemma readonly_surface_is_inert_witness :
  let readonlyProps := mkProps (Some true) None (Some true) None in
  let st := run [(readonlyProps, DidMount); (readonlyProps, MouseDown);
                 (readonlyProps, FocusIn); (readonlyProps, SetMode Edit);
                 (readonlyProps, Blur)]
              (constructor (mkViewState (Some "<p>a</p>") false)) in
  _mode st = View ∧ _editor st = None
  ∧ viewState st = mkViewState (Some "<p>a</p>") false ∧ constructed st = 0.
Proof.
  apply (readonly_surface_is_inert (mkViewState (Some "<p>a</p>") false)
           [(mkProps (Some true) None (Some true) None, DidMount);
            (mkProps (Some true) None (Some true) None, MouseDown);
            (mkProps (Some true) None (Some true) None, FocusIn);
            (mkProps (Some true) None (Some true) None, SetMode Edit);
            (mkProps (Some true) None (Some true) None, Blur)]
           eq_refl).
Defined.

(** ** Handlers complete *)


(** ** More on flushing *)

Lemma _updateViewState_same st vs c init :
  content vs = Some c → _updateViewState st vs c init = vs.
Proof.
  intros Hc. unfold _updateViewState.
  rewrite bool_decide_eq_false_2; [reflexivity |]. intros H. apply H, Hc.
Qed.

(** With the default [_updateViewState], a second blur right after a blur
    leaves the view state as the first one left it. *)
Theorem blur_twice_is_blur_once (p q : LeanRoosterProps) (st : LeanRooster) :
  updateViewState p = None →
  updateViewState q = None →
  viewState (exec (_onBlur q) (exec (_onBlur p) st)) = viewState (exec (_onBlur p) st).
Proof.
  intros Hp Hq. unfold_methods.
  destruct (_editor st) as [ed |] eqn:He; repeat (progress (simpl; rewrite ?He, ?Hp, ?Hq)).
  - apply _updateViewState_same, _updateViewState_content.
  - reflexivity.
Qed.

Lemma blur_twice_is_blur_once_witness :
  let st := run [(defaultProps, MouseDown); (defaultProps, UserInput "<p>b</p>")]
              (constructor (mkViewState (Some "<p>a</p>") false)) in
  viewState (exec (_onBlur defaultProps) (exec (_onBlur defaultProps) st))
  = viewState (exec (_onBlur defaultProps) st).
Proof.
  apply (blur_twice_is_blur_once defaultProps defaultProps
           (run [(defaultProps, MouseDown); (defaultProps, UserInput "<p>b</p>")]
              (constructor (mkViewState (Some "<p>a</p>") false)))
           eq_refl eq_refl).
Defined.

(** A surface constructed from a view state whose content is [null] or the
    empty string holds no initial markup; and with no initial markup held,
    a blur that changes the view-state content always sets [isDirty] to
    true (default [_updateViewState]), whatever the new content is. *)
Theorem empty_initial_markup_always_dirty
    (vs : EditorViewState) (p : LeanRoosterProps) (st : LeanRooster) (ed : Editor) :
  (_initialContent (constructor vs) = None
   ↔ content vs = None ∨ content vs = Some "")
  ∧ (updateViewState p = None →
     _editor st = Some ed →
     _initialContent st = None →
     content (viewState st) ≠ Some (innerHTML st) →
     viewState (exec (_onBlur p) st) = mkViewState (Some (innerHTML st)) true).
Proof.
  split.
  - unfold constructor, initialReactContent; simpl.
    destruct (content vs) as [c |]; [| split; auto].
    destruct c as [| a c']; simpl.
    + split; auto.
    + split; [discriminate |]. intros [H | H]; discriminate H.
  - intros Hp Hed Hic Hne. unfold_methods. rewrite Hed. simpl. rewrite Hp. simpl.
    unfold _updateViewState. rewrite Hic. simpl.
    rewrite bool_decide_eq_true_2 by exact Hne. reflexivity.
Qed.

Lemma empty_initial_markup_always_dirty_witness :
  let st := run [(defaultProps, MouseDown); (defaultProps, UserInput "x");
                 (defaultProps, Blur); (defaultProps, UserInput "")]
              (constructor (mkViewState (Some "") false)) in
  viewState (exec (_onBlur defaultProps) st) = mkViewState (Some "") true.
Proof.
  apply (empty_initial_markup_always_dirty (mkViewState (Some "") false) defaultProps
           (run [(defaultProps, MouseDown); (defaultProps, UserInput "x");
                 (defaultProps, Blur); (defaultProps, UserInput "")]
              (constructor (mkViewState (Some "") false)))
           (mkEditor 0 false ∅)).
  - reflexivity.
  - reflexivity.
  - reflexivity.
  - vm_compute. discriminate.
Defined.

(** ** Mounting *)

(** Right after construction, [componentDidMount] puts the surface in Edit
    mode, with an engine, exactly when [activateRoosterOnMount] is set, the
    surface is not read-only and the parent does not veto; otherwise the
    mount constructs nothing. *)
Theorem mount_activates_iff_asked (vs : EditorViewState) (p : LeanRoosterProps) :
  let st' := exec (componentDidMount p) (constructor vs) in
  let asked := truthy (activateRoosterOnMount p) && negb (truthy (readonly p))
               && negb (vetoes p Edit) in
  (mode st' = Edit ↔ asked = true)
  ∧ (is_Some (_editor st') ↔ asked = true)
  ∧ constructed st' = (if asked then 1 else 0).
Proof.
  unfold vetoes, mode. unfold_methods. simpl.
  destruct (truthy (readonly p)) eqn:Hr, (truthy (activateRoosterOnMount p)) eqn:Ha; simpl.
  all: rewrite ?Hr; simpl.
  all: try (repeat split; first [discriminate | intros [? H]; discriminate H | reflexivity]).
  destruct (match onBeforeModeChange p with Some f => f Edit | None => false end) eqn:Hv; simpl.
  - repeat split; first [discriminate | intros [? H]; discriminate H | reflexivity].
  - repeat split; eauto.
Qed.

(** ** Members that leave mode, engine and view state alone *)

(** [focus()], [reloadContent()], a pointer-up and the user's typing never
    switch the mode, never construct, replace or dispose an engine, and never
    write the view state. *)
Theorem passive_events_change_nothing
    (p : LeanRoosterProps) (ev : Event) (st : LeanRooster) :
  is_passive ev = true →
  let st' := exec (handle p ev) st in
  _mode st' = _mode st
  ∧ _editor st' = _editor st
  ∧ viewState st' = viewState st
  ∧ constructed st' = constructed st
  ∧ disposed st' = disposed st.
Proof.
  intros Hev. destruct ev; try discriminate Hev; unfold_methods; split_cases.
  all: unfold constructed, disposed; simpl; rewrite ?count_snoc; simpl.
  all: repeat split; first [congruence | lia].
Qed.

Lemma passive_events_change_nothing_witness :
  let st := run [(defaultProps, MouseDown); (defaultProps, UserInput "<p>b</p>")]
              (constructor (mkViewState (Some "<p>a</p>") false)) in
  viewState (exec (handle defaultProps ReloadContent) st)
  = mkViewState (Some "<p>a</p>") false.
Proof.
  apply (passive_events_change_nothing defaultProps ReloadContent
           (run [(defaultProps, MouseDown); (defaultProps, UserInput "<p>b</p>")]
              (constructor (mkViewState (Some "<p>a</p>") false)))
           eq_refl).
Defined.

(** ** selectAll *)

Ltac unfold_selectAll :=
  unfold selectAll, removeAllRanges, try_catch, call, exec, result, bind, ret,
    modify, throw in *.

(** [selectAll] completes normally whether or not [removeAllRanges] throws:
    the exception is swallowed and [addRange] is still the last call. It
    makes no call when the content div is not set, talks to the engine only
    when the held engine is not disposed, and to the window selection only
    otherwise. *)
Theorem selectAll_swallows_the_exception
    (contentDiv removeAllRangesThrows : bool) (st : LeanRooster)
    (calls : list SelectionCall) :
  let run_it := selectAll contentDiv removeAllRangesThrows st in
  result run_it calls = Normal tt
  ∧ exec run_it calls = calls ++
      (if negb contentDiv then []
       else match _editor st with
            | Some ed =>
                if isDisposed ed
                then [OwnerDocumentCreateRange; SelectNodeContents; WindowGetSelection;
                      RemoveAllRanges; AddRange]
                else [EditorCreateRange (editorId ed); SelectNodeContents;
                      EditorUpdateSelection (editorId ed)]
            | None => [OwnerDocumentCreateRange; SelectNodeContents; WindowGetSelection;
                       RemoveAllRanges; AddRange]
            end).
Proof.
  unfold_selectAll.
  destruct contentDiv; simpl; [| by rewrite app_nil_r].
  destruct (_editor st) as [ed |]; [destruct (isDisposed ed) |];
    destruct removeAllRangesThrows; simpl; by rewrite <- ?app_assoc.
Qed.




(** ** Instances of the properties above *)

Lemma unmount_releases_engine_witness :
  let st := run [(defaultProps, MouseDown)]
              (constructor (mkViewState (Some "<p>a</p>") false)) in
  trace (exec (componentWillUnmount defaultProps) st) = trace st ++ [EditorDispose 0].
Proof.
  pose proof (unmount_releases_engine (mkViewState (Some "<p>a</p>") false)
                [(defaultProps, MouseDown)] defaultProps) as (_ & _ & _ & Hd & _).
  exact (Hd (mkEditor 0 false ∅) eq_refl).
Defined.


(** Without an engine the window selection is used, and the exception of
    [removeAllRanges] does not keep [addRange] from being called. *)
Example selectAll_without_engine :
  selectAll true true (constructor (mkViewState (Some "<p>a</p>") false)) []
  = (Normal tt, [OwnerDocumentCreateRange; SelectNodeContents; WindowGetSelection;
                 RemoveAllRanges; AddRange]).
Proof. reflexivity. Qed.

End LeanRoosterSpec.

(** * Properties of the Command Bar *)

Module RoosterCommandBarSpec.
Import RoosterCommandBar.

Ltac unfold_methods :=
  unfold exec, result, handle, componentDidMount, componentWillUnmount,
    componentWillUpdate, refreshFormatState, timerExpires, _fileInputOnRef,
    _fileInputOnChange, _onCommandBarItemClick, _updateFormatState,
    _updateFormatStateDebounced, _initButtonKeys, emit, bind, ret, get,
    modify, throw in *.

Lemma setStates_snoc tr e :
  length (filter (λ x, is_SetState x = true) (tr ++ [e]))
  = length (filter (λ x, is_SetState x = true) tr) + (if is_SetState e then 1 else 0).
Proof.
  rewrite filter_app, length_app. f_equal.
  destruct (is_SetState e) eqn:He.
  - by rewrite filter_cons_True.
  - rewrite filter_cons_False; [done | by rewrite He].
Qed.

(** ** Comparing format states *)

(** The loop answers [true] exactly when one of the entries it walks has a
    different value in the new state. *)
Lemma for_in_changed_true entries newState :
  for_in_changed entries newState = true
  ↔ ∃ k v, (k, v) ∈ entries ∧ v ≠ prop newState k.
Proof.
  induction entries as [| [k v] rest IH]; simpl.
  - split; [discriminate |]. intros (k & v & Hin & _). by apply not_elem_of_nil in Hin.
  - unfold strict_neq. destruct (decide (v ≠ prop newState k)) as [Hne | Heq].
    + rewrite bool_decide_eq_true_2 by exact Hne.
      split; [| reflexivity]. intros _. exists k, v. split; [apply elem_of_cons; by left | exact Hne].
    + rewrite bool_decide_eq_false_2 by exact Heq.
      rewrite IH. split.
      * intros (k' & v' & Hin & Hne). exists k', v'. split; [apply elem_of_cons; by right | exact Hne].
      * intros (k' & v' & Hin & Hne). apply elem_of_cons in Hin as [Hhd | Htl].
        -- injection Hhd as -> ->. contradiction.
        -- exists k', v'. split; assumption.
Qed.

(** [_isFormatStateChanged] looks at the keys of the current format state
    only. *)
Lemma _isFormatStateChanged_true st newState :
  _isFormatStateChanged st newState = true
  ↔ ∃ k, is_Some (formatState st !! k) ∧ prop (formatState st) k ≠ prop newState k.
Proof.
  unfold _isFormatStateChanged. rewrite for_in_changed_true. split.
  - intros (k & v & Hin & Hne). apply elem_of_map_to_list in Hin.
    exists k. split; [eauto |]. unfold prop at 1. rewrite Hin. exact Hne.
  - intros (k & [v Hv] & Hne). exists k, v. split; [by apply elem_of_map_to_list |].
    unfold prop at 1 in Hne. rewrite Hv in Hne. exact Hne.
Qed.


(** C3, as the specification states it, fails: the current format state is
    [{bold: false}] and the polled one is [{bold: false, italic: true}]. The
    two mappings differ at the key [italic], yet the comparison answers
    "unchanged" and the poll calls [setState] not once, because the loop
    only visits the keys of the current state. *)
Lemma added_key_triggers_no_update :
  let cur : FormatState := {[ "bold" := JBool false ]} in
  let new : FormatState := <[ "italic" := JBool true ]> cur in
  let st := polling cur new in
  prop cur "italic" ≠ prop new "italic"
  ∧ _isFormatStateChanged st new = false
  ∧ exec _updateFormatState st = st
  ∧ ¬ (setStates (exec _updateFormatState st) = S (setStates st)
       ↔ ∃ k, prop cur k ≠ prop new k).
Proof.
  intros cur new st.
  assert (Hk : prop cur "italic" ≠ prop new "italic") by (vm_compute; discriminate).
  assert (Hsame : exec _updateFormatState st = st) by (vm_compute; reflexivity).
  split; [exact Hk |]. split; [vm_compute; reflexivity |]. split; [exact Hsame |].
  intros [_ Hback]. rewrite Hsame in Hback.
  assert (Habs : setStates st = S (setStates st)) by (apply Hback; eauto).
  lia.
Qed.

(** C3, amended: when the plugin brokers an editor, a poll of its format
    state calls [setState] (once, with the polled state) if and only if some
    key of the current format state has a different value in the polled
    state; keys that only the polled state has are not looked at. In
    particular a polled state that agrees with the current one on every key
    changes nothing. *)
Theorem update_iff_current_key_differs (st : RoosterCommandBar) (ed : Editor) :
  pluginEditor st = Some ed →
  let cur := formatState st in
  let new := getFormatState ed in
  let st' := exec _updateFormatState st in
  (setStates st' = S (setStates st)
   ↔ ∃ k, is_Some (cur !! k) ∧ prop cur k ≠ prop new k)
  ∧ (setStates st' = S (setStates st) →
     trace st' = trace st ++ [SetState new] ∧ formatState st' = new)
  ∧ ((∀ k, prop cur k = prop new k) → st' = st).
Proof.
  intros Hed cur new st'.
  unfold st'. unfold_methods. rewrite Hed. simpl.
  fold new. destruct (_isFormatStateChanged st new) eqn:Hch; simpl.
  - unfold setStates; simpl. rewrite setStates_snoc; simpl.
    split; [split; [intros _; by apply _isFormatStateChanged_true | intros _; lia] |].
    split; [auto |].
    intros Hall. apply _isFormatStateChanged_true in Hch as (k & _ & Hne).
    destruct (Hne (Hall k)).
  - split; [split; [lia |] |].
    + intros Hex. apply _isFormatStateChanged_true in Hex. congruence.
    + split; [lia | auto].
Qed.

Lemma update_iff_current_key_differs_witness :
  setStates (exec _updateFormatState
               (polling {[ "bold" := JBool false ]} {[ "bold" := JBool true ]}))
  = S (setStates (polling {[ "bold" := JBool false ]} {[ "bold" := JBool true ]})).
Proof.
  apply (update_iff_current_key_differs
           (polling {[ "bold" := JBool false ]} {[ "bold" := JBool true ]})
           (mkEditor 0 false {[ "bold" := JBool true ]}) eq_refl).
  exists "bold". split.
  - exists (JBool false). vm_compute. reflexivity.
  - vm_compute. discriminate.
Defined.

(** The two polls of the specification: [{bold: true, link: false}] polled
    again changes nothing, and [{bold: false}] followed by [{bold: true}]
    calls [setState]. *)
Example same_format_state_twice :
  let fs : FormatState := {[ "bold" := JBool true; "link" := JBool false ]} in
  exec _updateFormatState (polling fs fs) = polling fs fs.
Proof. vm_compute. reflexivity. Qed.

Example bold_switched_on :
  trace (exec _updateFormatState
           (polling {[ "bold" := JBool false ]} {[ "bold" := JBool true ]}))
  = [SetState {[ "bold" := JBool true ]}].
Proof. vm_compute. reflexivity. Qed.

(** ** The hidden file input *)

(** C7: when a file is selected while the plugin brokers an editor that is
    not disposed, the handler completes normally; without an image manager
    it calls the direct [insertImage] once and nothing else; with an image
    manager it calls, once each and in this order, [upload], [insertNode]
    with the placeholder, [triggerContentChangedEvent] and
    [addUndoSnapshot]; in both cases the value of the input is the empty
    string afterwards. *)
Theorem file_selection_inserts_once
    (p : RoosterCommandBarProps) (st : RoosterCommandBar)
    (input : HTMLInputElement) (ed : Editor) (file : File) :
  _fileInput st = Some input →
  head (files input) = Some file →
  pluginEditor st = Some ed →
  isDisposed ed = false →
  let st' := exec (_fileInputOnChange p) st in
  result (_fileInputOnChange p) st = Normal tt
  ∧ value <$> _fileInput st' = Some ""
  ∧ trace st' = trace st ++
      match imageManager p with
      | None => [InsertImage file]
      | Some manager =>
          [ImageManagerUpload file; InsertNode (upload manager ed file);
           TriggerContentChangedEvent "Format"; AddUndoSnapshot]
      end.
Proof.
  intros Hin Hfile Hed Hlive st'. unfold st'.
  unfold_methods. rewrite Hin, Hed, Hfile, Hlive. simpl.
  destruct (imageManager p) as [manager |]; simpl.
  - repeat split. by rewrite <- !app_assoc.
  - repeat split.
Qed.

Lemma file_selection_inserts_once_witness :
  let st' := exec (_fileInputOnChange (mkProps None None None None None))
               (picked "cat.png") in
  value <$> _fileInput st' = Some "" ∧ trace st' = [InsertImage "cat.png"].
Proof.
  pose proof (file_selection_inserts_once (mkProps None None None None None)
                (picked "cat.png") (mkInput ["cat.png"] "cat.png")
                (mkEditor 0 false ∅) "cat.png" eq_refl eq_refl eq_refl eq_refl)
    as (_ & Hv & Ht).
  split; [exact Hv | exact Ht].
Defined.


(** ** The rendered item list *)

Section Items.

Variable OutOfBoxCommandBarItems : list OutOfBoxCommandBarItem.
Variable OutOfBoxCommandBarItemMap : gmap string OutOfBoxCommandBarItem.

(** The copy made for rendering keeps the key of its template. *)
Lemma menuItemCopy_key p fs it : key (menuItemCopy p fs it) = key it.
Proof. destruct it; reflexivity. Qed.

(** [_createItems] renders, in order, a copy of the registry entry of every
    button key that has one. *)
Lemma _createItems_templates p st :
  _createItems OutOfBoxCommandBarItemMap p st
  = map (menuItemCopy p (formatState st))
      (omap (λ k, OutOfBoxCommandBarItemMap !! k) (_buttonKeys st)).
Proof.
  unfold _createItems. induction (_buttonKeys st) as [| k ks IH].
  - reflexivity.
  - cbn [map omap list_omap]. unfold _getMenuItem at 1.
    destruct (OutOfBoxCommandBarItemMap !! k) as [it |]; cbn [id map].
    + f_equal. exact IH.
    + exact IH.
Qed.

Lemma omap_lookup_keys (keys : list string) :
  (∀ k it, OutOfBoxCommandBarItemMap !! k = Some it → key it = k) →
  map key (omap (λ k, OutOfBoxCommandBarItemMap !! k) keys)
  = filter (λ k, is_Some (OutOfBoxCommandBarItemMap !! k)) keys.
Proof.
  intros Hkeyed. induction keys as [| k ks IH].
  - reflexivity.
  - cbn [omap list_omap].
    destruct (OutOfBoxCommandBarItemMap !! k) as [it |] eqn:Hk; cbn [map].
    + rewrite filter_cons_True by (rewrite Hk; eauto).
      rewrite IH. f_equal. by apply Hkeyed.
    + rewrite filter_cons_False; [exact IH |].
      rewrite Hk. apply is_Some_None.
Qed.

Lemma omap_lookup_known (keys : list string) (copy : OutOfBoxCommandBarItem → OutOfBoxCommandBarItem) :
  Forall2 (λ k item, ∃ template,
             OutOfBoxCommandBarItemMap !! k = Some template ∧ item = copy template)
    (filter (λ k, is_Some (OutOfBoxCommandBarItemMap !! k)) keys)
    (map copy (omap (λ k, OutOfBoxCommandBarItemMap !! k) keys)).
Proof.
  induction keys as [| k ks IH].
  - constructor.
  - cbn [omap list_omap].
    destruct (OutOfBoxCommandBarItemMap !! k) as [it |] eqn:Hk; cbn [map].
    + rewrite filter_cons_True by (rewrite Hk; eauto).
      constructor; [eauto | exact IH].
    + rewrite filter_cons_False; [exact IH |].
      rewrite Hk. apply is_Some_None.
Qed.

(** C8: for a caller-supplied list [keys] of button keys, the rendered
    items correspond one to one, and in the order of [keys], to those keys
    of the list the registry knows: each is the copy [_getMenuItem] makes of
    the registry entry under that key, and the unknown keys contribute
    nothing. When the registry files every item under the item's own key,
    the keys of the rendered items are therefore [keys] with the unknown
    ones left out. *)
Theorem rendered_items_are_the_known_keys
    (p : RoosterCommandBarProps) (st0 : RoosterCommandBar) (keys : list string) :
  visibleButtonKeys p = Some keys →
  let st := exec (_initButtonKeys OutOfBoxCommandBarItems p) st0 in
  let rendered := _createItems OutOfBoxCommandBarItemMap p st in
  let known := filter (λ k, is_Some (OutOfBoxCommandBarItemMap !! k)) keys in
  Forall2 (λ k item, ∃ template,
             OutOfBoxCommandBarItemMap !! k = Some template
             ∧ _getMenuItem p st (Some template) = Some item)
    known rendered
  ∧ length rendered = length known
  ∧ ((∀ k it, OutOfBoxCommandBarItemMap !! k = Some it → key it = k) →
     map key rendered = known).
Proof.
  intros Hkeys st rendered known.
  assert (Hst : _buttonKeys st = keys).
  { unfold st. unfold_methods. simpl. by rewrite Hkeys. }
  assert (Hall : Forall2 (λ k item, ∃ template,
                            OutOfBoxCommandBarItemMap !! k = Some template
                            ∧ _getMenuItem p st (Some template) = Some item)
                   known rendered).
  { unfold rendered, known. rewrite _createItems_templates, Hst.
    eapply Forall2_impl; [apply omap_lookup_known |].
    intros k item (template & Hk & ->). exists template. split; [exact Hk | reflexivity]. }
  split; [exact Hall |].
  split; [symmetry; exact (Forall2_length _ _ _ Hall) |].
  intros Hkeyed. unfold rendered, known.
  rewrite _createItems_templates, Hst.
  rewrite <- omap_lookup_keys by exact Hkeyed.
  rewrite <- list_fmap_compose. apply list_fmap_ext.
  intros i it _. apply menuItemCopy_key.
Qed.

End Items.

Lemma sampleRegistry_keyed k it :
  sampleRegistry !! k = Some it → key it = k.
Proof.
  unfold sampleRegistry. intros H.
  destruct (decide (k = "bold")) as [-> | Hb].
  - rewrite lookup_insert_eq in H. by injection H as <-.
  - rewrite lookup_insert_ne in H by done.
    destruct (decide (k = "photo")) as [-> | Hp].
    + rewrite lookup_singleton_eq in H. by injection H as <-.
    + rewrite lookup_singleton_ne in H by done. discriminate H.
Qed.

Lemma rendered_items_are_the_known_keys_witness :
  let p := mkProps None None None None (Some sampleKeys) in
  map key (_createItems sampleRegistry p (constructor [boldItem; photoItem] ∅ p))
  = filter (λ k, is_Some (sampleRegistry !! k)) sampleKeys.
Proof.
  intros p.
  apply (rendered_items_are_the_known_keys [boldItem; photoItem] sampleRegistry p
           (mkBar ∅ (Some asyncRef) None [] Async.create None []) sampleKeys
           eq_refl).
  exact sampleRegistry_keyed.
Defined.

Example rendered_sample_keys :
  let p := mkProps None None None None (Some sampleKeys) in
  map key (_createItems sampleRegistry p (constructor [boldItem; photoItem] ∅ p))
  = ["photo"; "bold"].
Proof. vm_compute. reflexivity. Qed.


(** ** Unmounting with a refresh pending *)

Section Unmount.

Variable OutOfBoxCommandBarItems : list OutOfBoxCommandBarItem.

Local Abbreviation handle := (handle OutOfBoxCommandBarItems).
Local Abbreviation run := (run OutOfBoxCommandBarItems).
Local Abbreviation constructor := (constructor OutOfBoxCommandBarItems).

Lemma handle_released_is_disposed ev st :
  released_is_disposed st → released_is_disposed (exec (handle ev) st).
Proof.
  unfold released_is_disposed, Async.dispose. intros Hinv.
  destruct ev; unfold_methods; unfold Async.expire, Async.debounced, Async.dispose;
    split_cases; intros Hnone; simplify_eq; auto.
  all: try (rewrite (Hinv Hnone) in *; simpl in *; congruence).
Qed.

Lemma run_released_is_disposed evs st :
  released_is_disposed st → released_is_disposed (run evs st).
Proof.
  revert st. induction evs as [| ev rest IH]; intros st Hinv; simpl.
  - exact Hinv.
  - apply IH, handle_released_is_disposed, Hinv.
Qed.

(** Once the Async object is disposed with no timer left, only a click on
    an item can still reach [setState]. *)
Lemma handle_after_dispose ev st :
  is_ItemClick ev = false →
  asyncObject st = Async.dispose (asyncObject st) →
  let st' := exec (handle ev) st in
  asyncObject st' = Async.dispose (asyncObject st') ∧ setStates st' = setStates st.
Proof.
  intros Hev Hd. unfold Async.dispose in Hd.
  destruct ev; try discriminate Hev; unfold_methods;
    unfold Async.expire, Async.debounced, Async.dispose; rewrite ?Hd; simpl.
  all: split_cases.
  all: unfold setStates; simpl; rewrite ?setStates_snoc; simpl; split; solve [auto | lia].
Qed.

Lemma run_after_dispose evs st :
  without_clicks evs = true →
  asyncObject st = Async.dispose (asyncObject st) →
  setStates (run evs st) = setStates st.
Proof.
  revert st. induction evs as [| ev rest IH]; intros st Hevs Hd; simpl in *.
  - reflexivity.
  - apply andb_true_iff in Hevs as [Hev Hrest]. apply negb_true_iff in Hev.
    destruct (handle_after_dispose ev st Hev Hd) as [Hd' Hs].
    rewrite IH by assumption. exact Hs.
Qed.

(** C9: when the command bar is unmounted while its debounced refresh is
    pending, [componentWillUnmount] completes normally and calls no
    [setState]; the pending timer is cleared, so its running out afterwards
    does nothing; and whatever happens later, short of a click on an item
    of the removed bar, [setState] is never called again. *)
Theorem unmount_cancels_pending_refresh
    (initialFormatState : FormatState) (p : RoosterCommandBarProps)
    (evs later : list Event) :
  let st := run evs (constructor initialFormatState p) in
  Async.timerPending (asyncObject st) = true →
  without_clicks later = true →
  let st1 := exec componentWillUnmount st in
  result componentWillUnmount st = Normal tt
  ∧ setStates st1 = setStates st
  ∧ Async.timerPending (asyncObject st1) = false
  ∧ exec timerExpires st1 = st1
  ∧ setStates (run later st1) = setStates st.
Proof.
  intros st Hpending Hlater st1.
  assert (Hinv : released_is_disposed st).
  { apply run_released_is_disposed. intros H. discriminate H. }
  assert (Hasync : _async st = Some asyncRef).
  { destruct (_async st) as [[] |] eqn:Ha; [reflexivity |].
    rewrite (Hinv Ha) in Hpending. discriminate Hpending. }
  assert (Hst1 : st1 = set_async None
                         (set_asyncObject (Async.dispose (asyncObject st))
                            (log AsyncDispose (log UnregisterRoosterCommandBar st)))).
  { unfold st1. unfold_methods. simpl. rewrite Hasync. reflexivity. }
  assert (Hs : setStates st1 = setStates st).
  { rewrite Hst1. unfold setStates. simpl. rewrite !setStates_snoc. simpl. lia. }
  split. { unfold_methods. simpl. rewrite Hasync. reflexivity. }
  split; [exact Hs |].
  split; [by rewrite Hst1 |].
  split. { rewrite Hst1. reflexivity. }
  rewrite <- Hs. apply run_after_dispose; [exact Hlater | by rewrite Hst1].
Qed.

End Unmount.

Lemma unmount_cancels_pending_refresh_witness :
  let st := run [] [DidMount; EditorChanges (Some boldEditor); RefreshFormatState]
              (constructor [] plainFormat (mkProps None None None None None)) in
  let st1 := exec componentWillUnmount st in
  setStates (run [] [TimerExpires; RefreshFormatState; TimerExpires] st1) = 0.
Proof.
  apply (unmount_cancels_pending_refresh [] plainFormat
           (mkProps None None None None None)
           [DidMount; EditorChanges (Some boldEditor); RefreshFormatState]
           [TimerExpires; RefreshFormatState; TimerExpires]).
  - reflexivity.
  - reflexivity.
Defined.

(** Without the unmount the same pending refresh does call [setState]. *)
Example pending_refresh_updates_mounted_bar :
  let st := run [] [DidMount; EditorChanges (Some boldEditor); RefreshFormatState]
              (constructor [] plainFormat (mkProps None None None None None)) in
  trace (run [] [TimerExpires] st)
  = [RegisterRoosterCommandBar; SetState {[ "bold" := JBool true ]}].
Proof. vm_compute. reflexivity. Qed.

(** * Further properties of the Command Bar *)

(** ** Induction over item trees *)

Section ItemInduction.

Variable P : OutOfBoxCommandBarItem → Prop.
Hypothesis step : ∀ k nm ti ch cn di io oc gc gs gd hc smp,
  holds_below P smp → P (mkItem k nm ti ch cn di io oc gc gs gd hc smp).

Fixpoint item_tree_ind (item : OutOfBoxCommandBarItem) : P item :=
  match item with
  | mkItem k nm ti ch cn di io oc gc gs gd hc smp =>
      step k nm ti ch cn di io oc gc gs gd hc smp
        (match smp as s return holds_below P s with
         | Some sm =>
             match sm as m return holds_below P (Some m) with
             | mkSubMenu its c d =>
                 match its as i return holds_below P (Some (mkSubMenu i c d)) with
                 | Some l =>
                     (fix go (l : list (option OutOfBoxCommandBarItem)) :
                        Forall (λ o, match o with Some sub => P sub | None => True end) l :=
                        match l with
                        | [] => @List.Forall_nil _ _
                        | o :: l' =>
                            @List.Forall_cons _ _ o l'
                              (match o as o'
                                     return match o' with Some sub => P sub | None => True end
                               with
                               | Some sub => item_tree_ind sub
                               | None => I
                               end)
                              (go l')
                        end) l
                 | None => I
                 end
             end
         | None => I
         end)
  end.

End ItemInduction.

(** ** What rendering does to an item tree *)

(** Every item [_getMenuItem] produces, and every submenu item below it at
    any depth, is icon only and has its click routed to
    [_onCommandBarItemClick]; every submenu with items carries the caller's
    callout class and dismiss callback. *)
Theorem rendered_tree_is_wired
    (p : RoosterCommandBarProps) (fs : FormatState) (item : OutOfBoxCommandBarItem) :
  every (is_wired p) (menuItemCopy p fs item) = true.
Proof.
  induction item as [k nm ti ch cn di io oc gc gs gd hc smp IH] using item_tree_ind.
  destruct smp as [[[its |] c d] |]; simpl in *.
  - apply andb_true_iff. split.
    + unfold is_wired. simpl. by rewrite !bool_decide_eq_true_2.
    + induction its as [| o rest IHrest]; simpl; [reflexivity |].
      apply Forall_cons_1 in IH as [Ho Hrest].
      destruct o as [sub |]; simpl.
      * rewrite Ho. simpl. by apply IHrest.
      * by apply IHrest.
  - reflexivity.
  - reflexivity.
Qed.

(** Rendering keeps the shape of an item tree: the key of every item, the
    number and order of the items of every submenu, and the places of
    missing entries, which - unlike unknown keys at the top level - are not
    dropped. *)
Theorem rendered_tree_keeps_keys
    (p : RoosterCommandBarProps) (fs : FormatState) (item : OutOfBoxCommandBarItem) :
  keyTree (menuItemCopy p fs item) = keyTree item.
Proof.
  induction item as [k nm ti ch cn di io oc gc gs gd hc smp IH] using item_tree_ind.
  destruct smp as [[[its |] c d] |]; simpl in *; try reflexivity.
  do 2 f_equal.
  induction its as [| o rest IHrest]; simpl; [reflexivity |].
  apply Forall_cons_1 in IH as [Ho Hrest].
  f_equal; [| by apply IHrest].
  destruct o as [sub |]; [by rewrite Ho | reflexivity].
Qed.

(** ** The default key list and the size of the rendered list *)

Section MoreItems.

Variable OutOfBoxCommandBarItems : list OutOfBoxCommandBarItem.
Variable OutOfBoxCommandBarItemMap : gmap string OutOfBoxCommandBarItem.

(** When the caller supplies no key list and the registry map files every
    template of the registry list under its key, the bar renders the whole
    registry: one copy of every template, in the order of the list. *)
Theorem default_keys_render_the_whole_registry
    (p : RoosterCommandBarProps) (st0 : RoosterCommandBar) :
  visibleButtonKeys p = None →
  (∀ item, item ∈ OutOfBoxCommandBarItems →
     OutOfBoxCommandBarItemMap !! key item = Some item) →
  let st := exec (_initButtonKeys OutOfBoxCommandBarItems p) st0 in
  _createItems OutOfBoxCommandBarItemMap p st
  = map (menuItemCopy p (formatState st)) OutOfBoxCommandBarItems.
Proof.
  intros Hkeys Hmap st.
  assert (Hst : _buttonKeys st = map key OutOfBoxCommandBarItems).
  { unfold st. unfold_methods. simpl. by rewrite Hkeys. }
  rewrite _createItems_templates, Hst. f_equal.
  clear Hst. induction OutOfBoxCommandBarItems as [| item rest IH]; [reflexivity |].
  cbn [map omap list_omap].
  rewrite (Hmap item) by (apply elem_of_cons; by left).
  f_equal. apply IH. intros item' Hin. apply Hmap, elem_of_cons. by right.
Qed.

(** The bar renders at most one item per button key, and as many items as
    keys exactly when every key is known to the registry. *)
Theorem rendered_at_most_one_per_key (p : RoosterCommandBarProps) (st : RoosterCommandBar) :
  length (_createItems OutOfBoxCommandBarItemMap p st) ≤ length (_buttonKeys st)
  ∧ (length (_createItems OutOfBoxCommandBarItemMap p st) = length (_buttonKeys st)
     ↔ Forall (λ k, is_Some (OutOfBoxCommandBarItemMap !! k)) (_buttonKeys st)).
Proof.
  rewrite _createItems_templates, length_map.
  induction (_buttonKeys st) as [| k ks [IHle IHeq]]; cbn [omap list_omap].
  - split; [reflexivity |]. split; [constructor | reflexivity].
  - destruct (OutOfBoxCommandBarItemMap !! k) as [it |] eqn:Hk; simpl.
    + split; [lia |]. rewrite Forall_cons. split.
      * intros H. split; [rewrite Hk; eauto | apply IHeq; lia].
      * intros [_ H]. apply IHeq in H. lia.
    + split; [lia |]. rewrite Forall_cons. split.
      * intros H. lia.
      * intros [H _]. rewrite Hk in H. by apply is_Some_None in H.
Qed.

End MoreItems.

Lemma default_keys_render_the_whole_registry_witness :
  let p := mkProps None None None None None in
  _createItems sampleRegistry p (constructor [photoItem; boldItem] ∅ p)
  = map (menuItemCopy p ∅) [photoItem; boldItem].
Proof.
  intros p.
  apply (default_keys_render_the_whole_registry [photoItem; boldItem] sampleRegistry p
           (mkBar ∅ (Some asyncRef) None [] Async.create None []) eq_refl).
  intros item Hin. apply elem_of_cons in Hin as [-> | Hin]; [reflexivity |].
  apply elem_of_cons in Hin as [-> | Hin]; [reflexivity |].
  by apply not_elem_of_nil in Hin.
Defined.

(** ** Clicks *)

(** A click on an item throws exactly when the item is the photo item and
    the file input is not there; then the format state is not polled, so no
    [setState] happens. In every case the handler of the item has already
    been applied to the editor the plugin brokers. *)
Theorem click_throws_iff_photo_without_input
    (item : OutOfBoxCommandBarItem) (st : RoosterCommandBar) :
  let st' := exec (_onCommandBarItemClick item) st in
  (result (_onCommandBarItemClick item) st = Throw "TypeError"
   ↔ key item = "photo" ∧ _fileInput st = None)
  ∧ (result (_onCommandBarItemClick item) st = Throw "TypeError"
     ∨ result (_onCommandBarItemClick item) st = Normal tt)
  ∧ (result (_onCommandBarItemClick item) st = Throw "TypeError" →
     setStates st' = setStates st)
  ∧ pluginEditor st'
    = match pluginEditor st, handleChange item with
      | Some ed, Some change => Some (change ed)
      | _, _ => pluginEditor st
      end.
Proof.
  unfold_methods.
  destruct (String.eqb (key item) "photo") eqn:Hk.
  - apply String.eqb_eq in Hk.
    destruct (pluginEditor st) as [ed |] eqn:He, (handleChange item) as [change |],
      (_fileInput st) as [input |] eqn:Hin; simpl; rewrite ?Hk, ?Hin; simpl.
    all: split_cases; unfold setStates; simpl; rewrite ?setStates_snoc; simpl.
    all: repeat split; intros; destruct_and?; simplify_eq; try lia; auto.
  - assert (Hne : key item ≠ "photo") by (by apply String.eqb_neq).
    destruct (pluginEditor st) as [ed |] eqn:He, (handleChange item) as [change |];
      simpl; rewrite ?Hk; simpl.
    all: split_cases; unfold setStates; simpl; rewrite ?setStates_snoc; simpl.
    all: repeat split; intros; destruct_and?; simplify_eq; try lia; auto.
Qed.

(** ** Polling *)

(** After a poll, the bar's format state agrees with the one the editor
    reports on every key the bar had, whether or not the poll called
    [setState]. *)
Theorem poll_synchronises_current_keys (st : RoosterCommandBar) (ed : Editor) :
  pluginEditor st = Some ed →
  ∀ k, is_Some (formatState st !! k) →
       prop (formatState (exec _updateFormatState st)) k = prop (getFormatState ed) k.
Proof.
  intros Hed k Hk. unfold_methods. rewrite Hed. simpl.
  destruct (_isFormatStateChanged st (getFormatState ed)) eqn:Hch; simpl; [reflexivity |].
  destruct (decide (prop (formatState st) k = prop (getFormatState ed) k)) as [Heq | Hne];
    [exact Heq |].
  assert (Htrue : _isFormatStateChanged st (getFormatState ed) = true)
    by (apply _isFormatStateChanged_true; eauto).
  congruence.
Qed.

Lemma poll_synchronises_current_keys_witness :
  prop (formatState (exec _updateFormatState
                       (polling {[ "bold" := JBool false ]} {[ "bold" := JBool true ]})))
       "bold"
  = prop (getFormatState (mkEditor 0 false {[ "bold" := JBool true ]})) "bold".
Proof.
  apply (poll_synchronises_current_keys
           (polling {[ "bold" := JBool false ]} {[ "bold" := JBool true ]})
           (mkEditor 0 false {[ "bold" := JBool true ]}) eq_refl "bold").
  exists (JBool false). vm_compute. reflexivity.
Defined.

Lemma _isFormatStateChanged_same st :
  _isFormatStateChanged st (formatState st) = false.
Proof.
  destruct (_isFormatStateChanged st (formatState st)) eqn:Hch; [| reflexivity].
  apply _isFormatStateChanged_true in Hch as (k & _ & Hne). contradiction.
Qed.

(** Polling twice in a row, with the editor unchanged in between, is the
    same as polling once: the second poll never calls [setState]. *)
Theorem poll_is_idempotent (st : RoosterCommandBar) :
  exec _updateFormatState (exec _updateFormatState st) = exec _updateFormatState st.
Proof.
  unfold_methods. destruct (pluginEditor st) as [ed |] eqn:Hed; simpl; rewrite ?Hed; simpl.
  - destruct (_isFormatStateChanged st (getFormatState ed)) eqn:Hch; simpl; rewrite ?Hed; simpl.
    + set (st1 := set_formatState (getFormatState ed) (log (SetState (getFormatState ed)) st)).
      change (getFormatState ed) with (formatState st1) at 1.
      rewrite _isFormatStateChanged_same. reflexivity.
    + rewrite Hch. reflexivity.
  - reflexivity.
Qed.

(** A poll does nothing when the plugin brokers no editor, and nothing when
    the bar's current format state has no key at all, whatever the editor
    reports. *)
Theorem poll_without_editor_or_keys_is_noop (st : RoosterCommandBar) :
  pluginEditor st = None ∨ formatState st = ∅ →
  _updateFormatState st = (Normal tt, st).
Proof.
  intros [Hnone | Hempty]; unfold_methods.
  - rewrite Hnone. reflexivity.
  - destruct (pluginEditor st) as [ed |]; simpl; [| reflexivity].
    unfold _isFormatStateChanged. rewrite Hempty, map_to_list_empty. reflexivity.
Qed.

Lemma poll_without_editor_or_keys_is_noop_witness :
  _updateFormatState (polling ∅ {[ "bold" := JBool true ]})
  = (Normal tt, polling ∅ {[ "bold" := JBool true ]}).
Proof.
  apply (poll_without_editor_or_keys_is_noop (polling ∅ {[ "bold" := JBool true ]})).
  right. reflexivity.
Defined.

(** ** File selection without a target *)

(** When the file input reports a change while the plugin brokers no
    editor, or a disposed one, or while no file is selected, the handler
    completes without doing anything: it inserts nothing and does not clear
    the value of the input. *)
Theorem file_selection_without_target_does_nothing
    (p : RoosterCommandBarProps) (st : RoosterCommandBar) (input : HTMLInputElement) :
  _fileInput st = Some input →
  pluginEditor st = None
  ∨ (∃ ed, pluginEditor st = Some ed ∧ isDisposed ed = true)
  ∨ files input = [] →
  _fileInputOnChange p st = (Normal tt, st).
Proof.
  intros Hin Hcase. unfold_methods. rewrite Hin. simpl.
  destruct Hcase as [Hnone | [(ed & Hed & Hd) | Hfiles]].
  - rewrite Hnone. reflexivity.
  - rewrite Hed. destruct (head (files input)); [| reflexivity]. by rewrite Hd.
  - rewrite Hfiles. simpl. by destruct (pluginEditor st).
Qed.

Lemma file_selection_without_target_does_nothing_witness :
  let disposedEditor := mkEditor 0 true ∅ in
  let st := exec (handle [] (EditorChanges (Some disposedEditor))) (picked "cat.png") in
  _fileInputOnChange (mkProps None None None None None) st = (Normal tt, st).
Proof.
  apply (file_selection_without_target_does_nothing (mkProps None None None None None)
           (exec (handle [] (EditorChanges (Some (mkEditor 0 true ∅)))) (picked "cat.png"))
           (mkInput ["cat.png"] "cat.png") eq_refl).
  right. left. eexists. split; reflexivity.
Defined.

(** ** Unmounting more than once, and bursts of refresh requests *)

Lemma occurrences_snoc e tr x :
  occurrences e (tr ++ [x]) = occurrences e tr + (if decide (x = e) then 1 else 0).
Proof.
  unfold occurrences. rewrite filter_app, length_app. f_equal.
  destruct (decide (x = e)) as [Heq | Hne].
  - by rewrite filter_cons_True.
  - by rewrite filter_cons_False.
Qed.

Section Runs.

Variable OutOfBoxCommandBarItems : list OutOfBoxCommandBarItem.

Local Abbreviation handle := (handle OutOfBoxCommandBarItems).
Local Abbreviation run := (run OutOfBoxCommandBarItems).
Local Abbreviation constructor := (constructor OutOfBoxCommandBarItems).

Lemma run_app evs1 evs2 st : run (evs1 ++ evs2) st = run evs2 (run evs1 st).
Proof. revert st. induction evs1 as [| ev rest IH]; intros st; simpl; [done | apply IH]. Qed.

Lemma handle_dispose_accounting ev st :
  dispose_accounting st →
  let st' := exec (handle ev) st in
  dispose_accounting st'
  ∧ occurrences UnregisterRoosterCommandBar (trace st')
    = occurrences UnregisterRoosterCommandBar (trace st)
      + (if is_WillUnmount ev then 1 else 0).
Proof.
  unfold dispose_accounting. intros Hinv.
  destruct ev; unfold_methods; split_cases;
    rewrite ?occurrences_snoc; simpl; split; try lia.
  all: try (destruct (_async st); simpl in *; simplify_eq; lia).
Qed.

(** However often the bar is unmounted, its Async object is disposed at most
    once, namely iff the component has given it up, while the bar
    unregisters from the plugin on every unmount. *)
Theorem async_is_disposed_at_most_once
    (initialFormatState : FormatState) (p : RoosterCommandBarProps) (evs : list Event) :
  let st := run evs (constructor initialFormatState p) in
  occurrences AsyncDispose (trace st) ≤ 1
  ∧ (occurrences AsyncDispose (trace st) = 1 ↔ _async st = None)
  ∧ occurrences UnregisterRoosterCommandBar (trace st) = unmounts evs.
Proof.
  intros st.
  assert (Hgen : ∀ st0, dispose_accounting st0 →
            dispose_accounting (run evs st0)
            ∧ occurrences UnregisterRoosterCommandBar (trace (run evs st0))
              = occurrences UnregisterRoosterCommandBar (trace st0) + unmounts evs).
  { induction evs as [| ev rest IH]; intros st0 Hinv; simpl.
    - split; [exact Hinv | unfold unmounts; simpl; lia].
    - destruct (handle_dispose_accounting ev st0 Hinv) as [Hinv' Hu].
      destruct (IH _ Hinv') as [H1 H2]. split; [exact H1 |].
      rewrite H2, Hu. unfold unmounts.
      destruct ev; simpl; rewrite ?filter_cons_True by done;
        rewrite ?filter_cons_False by done; simpl; lia. }
  destruct (Hgen (constructor initialFormatState p) eq_refl) as [Hinv Hu].
  fold st in Hinv, Hu. unfold dispose_accounting in Hinv.
  change (trace (constructor initialFormatState p)) with (@nil Effect) in Hu.
  split; [destruct (_async st); lia |].
  split; [| exact Hu].
  destruct (_async st) as [[] |]; split; intros H; try lia; try discriminate; reflexivity.
Qed.

Lemma refresh_twice ev st :
  ev = RefreshFormatState ∨ ev = TimerExpires →
  exec (handle ev) (exec (handle ev) st) = exec (handle ev) st.
Proof.
  intros [-> | ->]; unfold_methods; unfold Async.debounced, Async.expire.
  - destruct (Async._isDisposed (asyncObject st)) eqn:Hd; simpl; rewrite ?Hd; reflexivity.
  - destruct (Async.timerPending (asyncObject st)) eqn:Hp; simpl; rewrite ?Hp; simpl.
    + split_cases; reflexivity.
    + reflexivity.
Qed.

(** A burst of refresh requests is worth one: any number of
    [refreshFormatState()] calls followed by the timer running out, even
    twice, leaves the bar exactly as one call followed by the timer running
    out once; so a burst polls the format state at most once. *)
Theorem refresh_burst_polls_once (n : nat) (st : RoosterCommandBar) :
  run (replicate (S n) RefreshFormatState ++ [TimerExpires; TimerExpires]) st
  = run [RefreshFormatState; TimerExpires] st
  ∧ setStates (run (replicate (S n) RefreshFormatState) st) = setStates st
  ∧ setStates (run [RefreshFormatState; TimerExpires] st) ≤ S (setStates st).
Proof.
  assert (Hburst : ∀ st0, run (replicate (S n) RefreshFormatState) st0
                          = exec (handle RefreshFormatState) st0).
  { induction n as [| n IH]; intros st0; [reflexivity |].
    change (run (replicate (S (S n)) RefreshFormatState) st0)
      with (run (replicate (S n) RefreshFormatState)
              (exec (handle RefreshFormatState) st0)).
    rewrite IH. apply refresh_twice. by left. }
  split; [| split].
  - rewrite run_app, Hburst.
    change (run [TimerExpires; TimerExpires] (exec (handle RefreshFormatState) st))
      with (exec (handle TimerExpires)
              (exec (handle TimerExpires) (exec (handle RefreshFormatState) st))).
    rewrite refresh_twice by (by right). reflexivity.
  - rewrite Hburst. reflexivity.
  - simpl. unfold_methods. unfold Async.debounced, Async.expire.
    split_cases; unfold setStates; simpl; rewrite ?setStates_snoc; simpl; lia.
Qed.

End Runs.

(** ** Instances of the properties above *)

Lemma click_throws_iff_photo_without_input_witness :
  result (_onCommandBarItemClick photoItem)
    (constructor [] ∅ (mkProps None None None None None))
  = Throw "TypeError".
Proof.
  pose proof (click_throws_iff_photo_without_input photoItem
                (constructor [] ∅ (mkProps None None None None None))) as [[_ Hback] _].
  apply Hback. split; reflexivity.
Defined.

(** A template with a submenu of two entries, the second one missing: the
    rendered tree has the same keys in the same places. *)
Example rendered_submenu_keys :
  let fontItem :=
    mkItem "font" (Some "Font") None None None None None None None None None None
      (Some (mkSubMenu (Some [Some boldItem; None]) None None)) in
  keyTree (menuItemCopy (mkProps None None (Some "callout") None None) ∅ fontItem)
  = KeyNode "font" (Some [Some (KeyNode "bold" None); None]).
Proof. reflexivity. Qed.

End RoosterCommandBarSpec.
